(** * roborock/containers.py: the object codec and the capability decoder

    A shallow embedding of [roborock/containers.py]: the name transcoder
    ([camelize], [decamelize], [decamelize_obj]), the pydantic-backed object
    codec ([RoborockBase.from_dict], [RoborockBase.as_dict]), the derived
    fields computed at construction, the [Status] accessors and
    [build_device_features].

    Python integers are [Z], floats are the binary64 values of the standard
    library's IEEE 754 specification ([SpecFloat]), strings are [string]
    (ASCII: [str.lower], [str.title] and the class [[A-Z]] act on the letters
    a-z and A-Z and leave every other byte alone), dictionaries are
    association lists in insertion order, and an exception is a value of
    [exn] carried by [result]. *)

From Stdlib Require Import ZArith List String Ascii Bool Lia DecimalString.
From Stdlib Require Import Floats.SpecFloat.
Import ListNotations.

Set Warnings "-register-all".

Local Open Scope string_scope.
Local Open Scope Z_scope.

(** ** Exceptions and results *)

Inductive exn :=
| ValidationError (errors : list (list string * string))
    (* pydantic_core.ValidationError, a ValueError: one (location, kind) per
       failing field *)
| ValueError
| OverflowError
| ZeroDivisionError
| TypeError
| AttributeError
| OSError
| RoborockException (msg : string) (cause : option exn).
    (* [raise RoborockException(msg) from cause] *)

Inductive result (A : Type) :=
| Ok (a : A)
| Raise (e : exn).
Arguments Ok {A} a.
Arguments Raise {A} e.

Definition bind {A B} (r : result A) (k : A -> result B) : result B :=
  match r with
  | Ok a => k a
  | Raise e => Raise e
  end.

Declare Scope py_scope.
Delimit Scope py_scope with py.
Notation "x <- r ;; k" := (bind r (fun x => k))
  (at level 61, r at next level, right associativity) : py_scope.
Local Open Scope py_scope.

(** [except ValueError]: the exceptions that clause catches. *)
Definition is_ValueError (e : exn) : bool :=
  match e with
  | ValidationError _ | ValueError => true
  | _ => false
  end.

(** ** Characters and strings *)

Module Str.

Definition is_upper (c : ascii) : bool :=
  let n := nat_of_ascii c in (Nat.leb 65 n && Nat.leb n 90)%bool.

Definition is_lower (c : ascii) : bool :=
  let n := nat_of_ascii c in (Nat.leb 97 n && Nat.leb n 122)%bool.

Definition to_lower (c : ascii) : ascii :=
  if is_upper c then ascii_of_nat (nat_of_ascii c + 32) else c.

Definition to_upper (c : ascii) : ascii :=
  if is_lower c then ascii_of_nat (nat_of_ascii c - 32) else c.

(** [s.lower()] *)
Fixpoint lower (s : string) : string :=
  match s with
  | EmptyString => EmptyString
  | String c s' => String (to_lower c) (lower s')
  end.

(** [s.title()]: a letter that follows a letter is lower-cased, any other
    letter is upper-cased; [cased] says whether the previous character was
    a letter. *)
Fixpoint title_from (cased : bool) (s : string) : string :=
  match s with
  | EmptyString => EmptyString
  | String c s' =>
      if (is_lower c || is_upper c)%bool
      then String (if cased then to_lower c else to_upper c) (title_from true s')
      else String c (title_from false s')
  end.

Definition title (s : string) : string := title_from false s.

(** [s.split("_")]: never empty; [cur] is the segment being read. *)
Fixpoint split_from (cur : string) (s : string) : list string :=
  match s with
  | EmptyString => [cur]
  | String c s' =>
      if Ascii.eqb c "_"%char
      then cur :: split_from EmptyString s'
      else split_from (cur ++ String c EmptyString) s'
  end.

Definition split_underscore (s : string) : list string :=
  split_from EmptyString s.

(** [str.join] with the empty separator. *)
Definition join (l : list string) : string :=
  fold_right String.append EmptyString l.

Definition is_digit (c : ascii) : bool :=
  let n := nat_of_ascii c in (Nat.leb 48 n && Nat.leb n 57)%bool.

Definition digit_value (c : ascii) : Z := Z.of_nat (nat_of_ascii c) - 48.

(** A decimal-digit string: one or more of the characters 0-9. *)
Fixpoint all_digits (s : string) : bool :=
  match s with
  | EmptyString => true
  | String c s' => (is_digit c && all_digits s')%bool
  end.

Definition decimal_digits (s : string) : bool :=
  match s with
  | EmptyString => false
  | _ => all_digits s
  end.

(** The value of a digit string in base [base], most significant first. *)
Fixpoint digits_value (base : Z) (acc : Z) (s : string) : Z :=
  match s with
  | EmptyString => acc
  | String c s' => digits_value base (base * acc + digit_value c) s'
  end.

(** [s[-n:]] *)
Definition last_chars (n : nat) (s : string) : string :=
  String.substring (String.length s - n) n s.

End Str.

(** ** The name transcoder (lines 75-83) *)

(** [camelize], lines 75-79. *)
Definition camelize (s : string) : string :=
  match Str.split_underscore s with
  | [] => s
  | first :: others =>
      match others with
      | [] => s
      | _ => Str.join (Str.lower first :: map Str.title others)
      end
  end.

(** [re.sub("([A-Z]+)", "_\\1", s)]: an underscore goes before every maximal
    run of capitals; [in_run] says whether the previous character was a
    capital. *)
Fixpoint underscore_runs (in_run : bool) (s : string) : string :=
  match s with
  | EmptyString => EmptyString
  | String c s' =>
      if Str.is_upper c
      then if in_run then String c (underscore_runs true s')
           else String "_"%char (String c (underscore_runs true s'))
      else String c (underscore_runs false s')
  end.

(** [decamelize], lines 82-83. *)
Definition decamelize (s : string) : string :=
  Str.lower (underscore_runs false s).

(** ** Python numbers *)

Module Py.

(** [sys.get_int_max_str_digits()] of a stock CPython: [int(s)] raises
    [ValueError] when a decimal string has more digit characters. *)
Definition int_max_str_digits : nat := 4300.

(** [int(s)] on a string of decimal digits.  The other spellings [int]
    accepts (a sign, surrounding blanks, underscores between digits) are
    outside this model: every statement below is about digit strings. *)
Definition int_of_str (s : string) : result Z :=
  if Str.decimal_digits s
  then if Nat.ltb int_max_str_digits (String.length s)
       then Raise ValueError
       else Ok (Str.digits_value 10 0 s)
  else Raise ValueError.

(** [int("0x" + s, 16)] on a string of decimal digits; base 16 has no limit
    on the number of digits. *)
Definition int_of_hex (s : string) : result Z :=
  if Str.decimal_digits s
  then Ok (Str.digits_value 16 0 s)
  else Raise ValueError.

Definition prec : Z := 53.
Definition emax : Z := 1024.

(** [a / b] on integers: the binary64 value nearest to the exact quotient,
    ties to even; [OverflowError] when that value is not finite. *)
Definition truediv (a b : Z) : result spec_float :=
  if b =? 0 then Raise ZeroDivisionError
  else
    let sign := xorb (a <? 0) (b <? 0) in
    if a =? 0 then Ok (S754_zero sign)
    else
      let '(mz, ez, lz) := SFdiv_core_binary prec emax (Z.abs a) 0 (Z.abs b) 0 in
      match binary_round_aux prec emax sign mz ez lz with
      | S754_infinity _ => Raise OverflowError
      | f => Ok f
      end.

(** [int(f)]: truncation toward zero. *)
Definition int_of_float (f : spec_float) : result Z :=
  match f with
  | S754_zero _ => Ok 0
  | S754_finite s m e =>
      let magnitude :=
        if 0 <=? e then Z.shiftl (Z.pos m) e else Z.shiftr (Z.pos m) (- e) in
      Ok (cond_Zopp s magnitude)
  | S754_infinity _ => Raise OverflowError
  | S754_nan => Raise ValueError
  end.

(** [round(n / d)] to the nearest integer, ties to even, for [0 <= n],
    [0 < d]. *)
Definition div_half_even (n d : Z) : Z :=
  let q := n / d in
  let r := n mod d in
  match 2 * r ?= d with
  | Lt => q
  | Gt => q + 1
  | Eq => if Z.even q then q else q + 1
  end.

(** [round(f, 1)]: the exact value of [f] is rounded to one decimal digit,
    ties to even, and the decimal result is read back as the nearest
    binary64 (CPython's correctly rounded float round). *)
Definition round1 (f : spec_float) : result spec_float :=
  match f with
  | S754_finite s m e =>
      if 0 <=? e then Ok f
      else
        let tenths := div_half_even (Z.pos m * 10) (Z.shiftl 1 (- e)) in
        if tenths =? 0 then Ok (S754_zero s)
        else truediv (cond_Zopp s tenths) 10
  | _ => Ok f
  end.

(** [bool(n)] on an integer. *)
Definition truthy (n : Z) : bool := negb (n =? 0).

(** [a and b] on integers. *)
Definition and_int (a b : Z) : Z := if a =? 0 then a else b.

End Py.

(** ** The capability decoder (lines 269-396) *)

(** [DeviceFeatures], lines 269-326. *)
Record DeviceFeatures := {
  map_carpet_add_supported : bool;
  show_clean_finish_reason_supported : bool;
  resegment_supported : bool;
  video_monitor_supported : bool;
  any_state_transit_goto_supported : bool;
  fw_filter_obstacle_supported : bool;
  video_setting_supported : bool;
  ignore_unknown_map_object_supported : bool;
  set_child_supported : bool;
  carpet_supported : bool;
  mop_path_supported : bool;
  multi_map_segment_timer_supported : bool;
  custom_water_box_distance_supported : bool;
  wash_then_charge_cmd_supported : bool;
  room_name_supported : bool;
  current_map_restore_enabled : bool;
  photo_upload_supported : bool;
  shake_mop_set_supported : bool;
  map_beautify_internal_debug_supported : bool;
  new_data_for_clean_history : bool;
  new_data_for_clean_history_detail : bool;
  flow_led_setting_supported : bool;
  dust_collection_setting_supported : bool;
  rpc_retry_supported : bool;
  avoid_collision_supported : bool;
  support_set_switch_map_mode : bool;
  support_smart_scene : bool;
  support_floor_edit : bool;
  support_furniture : bool;
  support_room_tag : bool;
  support_quick_map_builder : bool;
  support_smart_global_clean_with_custom_mode : bool;
  record_allowed : bool;
  careful_slow_map_supported : bool;
  egg_mode_supported : bool;
  unsave_map_reason_supported : bool;
  carpet_show_on_map : bool;
  supported_valley_electricity : bool;
  drying_supported : bool;
  download_test_voice_supported : bool;
  support_backup_map : bool;
  support_custom_mode_in_cleaning : bool;
  support_remote_control_in_call : bool;
  support_set_volume_in_call : bool;
  support_clean_estimate : bool;
  support_custom_dnd : bool;
  carpet_deep_clean_supported : bool;
  stuck_zone_supported : bool;
  custom_door_sill_supported : bool;
  clean_route_fast_mode_supported : bool;
  cliff_zone_supported : bool;
  smart_door_sill_supported : bool;
  support_floor_direction : bool;
  wifi_manage_supported : bool;
  back_charge_auto_wash_supported : bool;
  support_incremental_map : bool;
  offline_map_supported : bool
}.

(** [new_feature_set_divided], line 332: a float division followed by a
    truncation. *)
Definition new_feature_set_divided_of (new_feature_set_int : Z) : result Z :=
  quotient <- Py.truediv new_feature_set_int (2 ^ 32) ;;
  Py.int_of_float quotient.

(** The quantity the decoder calls [new_feature_set_divided], as a function of
    the extended feature word (lines 330 and 332). *)
Definition extended_high (new_feature_set : string) : result Z :=
  new_feature_set_int <- Py.int_of_str new_feature_set ;;
  new_feature_set_divided_of new_feature_set_int.

(** [build_device_features], lines 329-396.  The keyword arguments are read in
    the order the call writes them; all of them are booleans, which the
    [DeviceFeatures] constructor accepts as they are. *)
Definition build_device_features (feature_set new_feature_set : string)
  : result DeviceFeatures :=
  new_feature_set_int <- Py.int_of_str new_feature_set ;;
  feature_set_int <- Py.int_of_str feature_set ;;
  new_feature_set_divided <- new_feature_set_divided_of new_feature_set_int ;;
  converted_new_feature_set <- Py.int_of_hex (Str.last_chars 8 new_feature_set) ;;
  let new_feature_set_mod_8 : bool :=
    Nat.eqb (Nat.modulo (String.length new_feature_set) 8) 0 in
  Ok {|
    map_carpet_add_supported :=
      Py.truthy (Z.land 1073741824 new_feature_set_int);
    show_clean_finish_reason_supported :=
      Py.truthy (Z.land 1 new_feature_set_int);
    resegment_supported :=
      Py.truthy (Z.land 4 new_feature_set_int);
    video_monitor_supported :=
      Py.truthy (Z.land 8 new_feature_set_int);
    any_state_transit_goto_supported :=
      Py.truthy (Z.land 16 new_feature_set_int);
    fw_filter_obstacle_supported :=
      Py.truthy (Z.land 32 new_feature_set_int);
    video_setting_supported :=
      Py.truthy (Z.land 64 new_feature_set_int);
    ignore_unknown_map_object_supported :=
      Py.truthy (Z.land 128 new_feature_set_int);
    set_child_supported :=
      Py.truthy (Z.land 256 new_feature_set_int);
    carpet_supported :=
      Py.truthy (Z.land 512 new_feature_set_int);
    mop_path_supported :=
      Py.truthy (Z.land 2048 new_feature_set_int);
    multi_map_segment_timer_supported :=
      Py.truthy (Py.and_int feature_set_int (Z.land 4096 new_feature_set_int));
    custom_water_box_distance_supported :=
      Py.truthy (Py.and_int new_feature_set_int (Z.land 2147483648 new_feature_set_int));
    wash_then_charge_cmd_supported :=
      Py.truthy (Z.land (Z.shiftr new_feature_set_divided 5) 1);
    room_name_supported :=
      Py.truthy (Z.land 16384 new_feature_set_int);
    current_map_restore_enabled :=
      Py.truthy (Z.land 8192 new_feature_set_int);
    photo_upload_supported :=
      Py.truthy (Z.land 65536 new_feature_set_int);
    shake_mop_set_supported :=
      Py.truthy (Z.land 262144 new_feature_set_int);
    map_beautify_internal_debug_supported :=
      Py.truthy (Z.land 2097152 new_feature_set_int);
    new_data_for_clean_history :=
      Py.truthy (Z.land 4194304 new_feature_set_int);
    new_data_for_clean_history_detail :=
      Py.truthy (Z.land 8388608 new_feature_set_int);
    flow_led_setting_supported :=
      Py.truthy (Z.land 16777216 new_feature_set_int);
    dust_collection_setting_supported :=
      Py.truthy (Z.land 33554432 new_feature_set_int);
    rpc_retry_supported :=
      Py.truthy (Z.land 67108864 new_feature_set_int);
    avoid_collision_supported :=
      Py.truthy (Z.land 134217728 new_feature_set_int);
    support_set_switch_map_mode :=
      Py.truthy (Z.land 268435456 new_feature_set_int);
    support_smart_scene :=
      Py.truthy (Z.land new_feature_set_divided 2);
    support_floor_edit :=
      Py.truthy (Z.land new_feature_set_divided 8);
    support_furniture :=
      Py.truthy (Z.land (Z.shiftr new_feature_set_divided 4) 1);
    support_room_tag :=
      Py.truthy (Z.land (Z.shiftr new_feature_set_divided 6) 1);
    support_quick_map_builder :=
      Py.truthy (Z.land (Z.shiftr new_feature_set_divided 7) 1);
    support_smart_global_clean_with_custom_mode :=
      Py.truthy (Z.land (Z.shiftr new_feature_set_divided 8) 1);
    record_allowed :=
      Py.truthy (Z.land 1024 new_feature_set_int);
    careful_slow_map_supported :=
      Py.truthy (Z.land (Z.shiftr new_feature_set_divided 9) 1);
    egg_mode_supported :=
      Py.truthy (Z.land (Z.shiftr new_feature_set_divided 10) 1);
    unsave_map_reason_supported :=
      Py.truthy (Z.land (Z.shiftr new_feature_set_divided 14) 1);
    carpet_show_on_map :=
      Py.truthy (Z.land (Z.shiftr new_feature_set_divided 12) 1);
    supported_valley_electricity :=
      Py.truthy (Z.land (Z.shiftr new_feature_set_divided 13) 1);
    drying_supported :=
      Py.truthy (Z.land (Z.shiftr new_feature_set_divided 15) 1);
    download_test_voice_supported :=
      Py.truthy (Z.land (Z.shiftr new_feature_set_divided 16) 1);
    support_backup_map :=
      Py.truthy (Z.land (Z.shiftr new_feature_set_divided 17) 1);
    support_custom_mode_in_cleaning :=
      Py.truthy (Z.land (Z.shiftr new_feature_set_divided 18) 1);
    support_remote_control_in_call :=
      Py.truthy (Z.land (Z.shiftr new_feature_set_divided 19) 1);
    support_set_volume_in_call :=
      (new_feature_set_mod_8 && Py.truthy (Z.land 1 converted_new_feature_set))%bool;
    support_clean_estimate :=
      (new_feature_set_mod_8 && Py.truthy (Z.land 2 converted_new_feature_set))%bool;
    support_custom_dnd :=
      (new_feature_set_mod_8 && Py.truthy (Z.land 4 converted_new_feature_set))%bool;
    carpet_deep_clean_supported :=
      Py.truthy (Z.land 8 converted_new_feature_set);
    stuck_zone_supported :=
      (new_feature_set_mod_8 && Py.truthy (Z.land 16 converted_new_feature_set))%bool;
    custom_door_sill_supported :=
      (new_feature_set_mod_8 && Py.truthy (Z.land 32 converted_new_feature_set))%bool;
    clean_route_fast_mode_supported :=
      Py.truthy (Z.land 256 converted_new_feature_set);
    cliff_zone_supported :=
      (new_feature_set_mod_8 && Py.truthy (Z.land 512 converted_new_feature_set))%bool;
    smart_door_sill_supported :=
      (new_feature_set_mod_8 && Py.truthy (Z.land 1024 converted_new_feature_set))%bool;
    support_floor_direction :=
      (new_feature_set_mod_8 && Py.truthy (Z.land 2048 converted_new_feature_set))%bool;
    wifi_manage_supported :=
      Py.truthy (Z.land 128 converted_new_feature_set);
    back_charge_auto_wash_supported :=
      Py.truthy (Z.land 4096 converted_new_feature_set);
    support_incremental_map :=
      Py.truthy (Z.land 8192 converted_new_feature_set);
    offline_map_supported :=
      Py.truthy (Z.land 16384 converted_new_feature_set)
  |}.

(** ** Values *)

(** An enumeration code: an integer or a string. *)
Inductive code :=
| CInt (z : Z)
| CStr (s : string).

(** Modelled from the spec: the enumeration classes of [roborock.code_mappings]
    are not part of the sources.  The specification describes each as a
    registered table that maps symbolic names to codes in both directions;
    [enum_members] lists the members in definition order. *)
Record enum_table := {
  enum_name : string;
  enum_members : list (string * code)
}.

(** The Python values the codec handles.  A dictionary lists its items in
    insertion order; an instance of a [RoborockBase] subclass carries the name
    of its class and its fields in declaration order. *)
Inductive value :=
| VNone
| VBool (b : bool)
| VInt (z : Z)
| VFloat (f : spec_float)
| VStr (s : string)
| VTime (hour minute : Z)           (* datetime.time(hour=, minute=) *)
| VDatetime (epoch : Z)             (* an aware datetime in UTC, whole seconds *)
| VEnum (e : enum_table) (name : string) (c : code)   (* a member of [e] *)
| VList (items : list value)
| VDict (items : list (string * value))
| VModel (cls : string) (fields : list (string * value)).

Definition items := list (string * value).

(** *** Dictionaries *)

Fixpoint dict_get {A} (k : string) (d : list (string * A)) : option A :=
  match d with
  | [] => None
  | (k', v) :: d' => if String.eqb k k' then Some v else dict_get k d'
  end.

(** [d[k] = v]: a key already present keeps its place. *)
Fixpoint dict_set {A} (k : string) (v : A) (d : list (string * A))
  : list (string * A) :=
  match d with
  | [] => [(k, v)]
  | (k', v') :: d' =>
      if String.eqb k k' then (k, v) :: d' else (k', v') :: dict_set k v d'
  end.

(** A dictionary display or comprehension: the items are inserted in turn. *)
Definition dict_of_items {A} (l : list (string * A)) : list (string * A) :=
  fold_left (fun acc kv => dict_set (fst kv) (snd kv) acc) l [].

Definition is_none (v : value) : bool :=
  match v with VNone => true | _ => false end.

Definition is_dict (v : value) : bool :=
  match v with VDict _ => true | _ => false end.

(** [bool(v)] *)
Definition truthy_value (v : value) : bool :=
  match v with
  | VNone => false
  | VBool b => b
  | VInt z => Py.truthy z
  | VFloat (S754_zero _) => false
  | VStr EmptyString => false
  | VList [] => false
  | VDict [] => false
  | _ => true
  end.

Definition value_of_code (c : code) : value :=
  match c with
  | CInt z => VInt z
  | CStr s => VStr s
  end.

Definition code_eqb (a b : code) : bool :=
  match a, b with
  | CInt x, CInt y => Z.eqb x y
  | CStr x, CStr y => String.eqb x y
  | _, _ => false
  end.

Fixpoint members_eqb (a b : list (string * code)) : bool :=
  match a, b with
  | [], [] => true
  | (n, c) :: a', (n', c') :: b' =>
      (String.eqb n n' && code_eqb c c' && members_eqb a' b')%bool
  | _, _ => false
  end.

(** Whether two tables are the same enumeration class. *)
Definition enum_table_eqb (a b : enum_table) : bool :=
  (String.eqb (enum_name a) (enum_name b)
   && members_eqb (enum_members a) (enum_members b))%bool.

(** Modelled from the spec: the member registered for a code, [EnumClass(code)];
    the first member with that code. *)
Fixpoint member_of_code (members : list (string * code)) (c : code)
  : option string :=
  match members with
  | [] => None
  | (n, c') :: rest => if code_eqb c c' then Some n else member_of_code rest c
  end.

(** Modelled from the spec: [EnumClass.as_dict()], the name-to-code table, and
    [EnumClass.keys()], its names in order. *)
Definition enum_as_dict (e : enum_table) : list (string * code) := enum_members e.
Definition enum_keys (e : enum_table) : list string := map fst (enum_members e).

(** ** pydantic: [model_dump(exclude_none=True)]

    Every instance, at any depth, becomes a dictionary of its fields without
    those that are [None]; lists and dictionaries are copied item by item;
    enumeration members and every other value stay as they are. *)
Fixpoint model_dump (v : value) : value :=
  match v with
  | VModel _ fs =>
      VDict ((fix dump_fields (fs : items) : items :=
                match fs with
                | [] => []
                | (k, x) :: fs' =>
                    match x with
                    | VNone => dump_fields fs'
                    | _ => (k, model_dump x) :: dump_fields fs'
                    end
                end) fs)
  | VList l => VList (map model_dump l)
  | VDict d =>
      VDict ((fix dump_items (d : items) : items :=
                match d with
                | [] => []
                | (k, x) :: d' => (k, model_dump x) :: dump_items d'
                end) d)
  | _ => v
  end.

(** ** [RoborockBase.as_dict] (lines 115-120) and its overrides *)

(** The value expression of line 117, applied to an item of [model_dump]'s
    result.  [model_dump] has already turned every nested instance into a
    dictionary (lemma [model_dump_plain] below), so the [isinstance(value,
    RoborockBase)] test never holds there and its branch has no effect. *)
Definition encode_item (item : value) : value :=
  match item with
  | VModel _ _ => item
  | VEnum _ _ c => value_of_code c
  | _ => item
  end.

Definition not_none_items (d : items) : items :=
  filter (fun kv => negb (is_none (snd kv))) d.

(** [RoborockBase.as_dict], lines 115-120. *)
Definition RoborockBase_as_dict (self : value) : items :=
  match model_dump self with
  | VDict dumped =>
      let result :=
        dict_of_items
          (map (fun kv => (camelize (fst kv), encode_item (snd kv))) dumped) in
      not_none_items result
  | _ => []
  end.

(** [self.as_dict()], dispatched on the class of [self]: [RRiot] (lines
    177-181) and [UserData] (lines 197-203) override the method, every other
    class inherits it.  In [UserData.as_dict] the [isinstance] test is applied
    to items of [super().as_dict()] and never holds either. *)
Fixpoint as_dict (self : value) : value :=
  match self with
  | VModel cls fs =>
      let result := RoborockBase_as_dict self in
      if String.eqb cls "RRiot" then
        match (fix attr_r (fs : items) : option (value * value) :=
                 match fs with
                 | [] => None
                 | (k, x) :: fs' =>
                     if String.eqb k "r" then Some (x, as_dict x) else attr_r fs'
                 end) fs with
        | Some (r, r_dict) =>
            if truthy_value r then VDict (dict_set "r" r_dict result)
            else VDict result
        | None => VDict result
        end
      else if String.eqb cls "UserData" then VDict (not_none_items result)
      else VDict result
  | _ => self
  end.

(** ** [decamelize_obj] (lines 122-137, the definition in force) *)

(** [isinstance(b, dict | list | RoborockBase)] *)
Definition is_container (v : value) : bool :=
  match v with
  | VDict _ | VList _ | VModel _ _ => true
  | _ => false
  end.

(** The key expression of line 133. *)
Definition decamelize_key (ignore_keys : list string) (a : string) : string :=
  if existsb (String.eqb a) ignore_keys then a else decamelize a.

(** [decamelize_obj] on the result of [as_dict()], which holds no instance. *)
Fixpoint decamelize_plain (ignore_keys : list string) (d : value) : value :=
  match d with
  | VList l =>
      VList (map (fun i => if is_container i
                           then decamelize_plain ignore_keys i else i) l)
  | VDict kvs =>
      VDict (dict_of_items
               (map (fun ab => (decamelize_key ignore_keys (fst ab),
                                if is_container (snd ab)
                                then decamelize_plain ignore_keys (snd ab)
                                else snd ab)) kvs))
  | _ => d
  end.

(** [decamelize_obj]: an instance is first re-expressed by its own
    [as_dict()] (lines 123-124), then walked like any dictionary. *)
Fixpoint decamelize_obj (ignore_keys : list string) (d : value) : value :=
  match d with
  | VModel _ _ => decamelize_plain ignore_keys (as_dict d)
  | VList l =>
      VList (map (fun i => if is_container i
                           then decamelize_obj ignore_keys i else i) l)
  | VDict kvs =>
      VDict (dict_of_items
               (map (fun ab => (decamelize_key ignore_keys (fst ab),
                                if is_container (snd ab)
                                then decamelize_obj ignore_keys (snd ab)
                                else snd ab)) kvs))
  | _ => d
  end.

(** ** Schemas: the field declarations of a [RoborockBase] subclass *)

(** The scalar annotations. *)
Inductive prim := PInt | PStr | PBool | PFloat | PTime | PDatetime.

(** A method body that reads and assigns attributes of [self]; [self] is the
    list of the instance's fields. *)
Definition method := items -> result items.

Inductive ftype :=
| TAny                        (* Any *)
| TNone                       (* None *)
| TPrim (p : prim)            (* int, str, bool, float, datetime.time, datetime.datetime *)
| TDict                       (* dict *)
| TListAny                    (* list *)
| TEnum (e : enum_table)      (* an enumeration class *)
| TOpt (t : ftype)            (* t | None *)
| TList (t : ftype)           (* list[t] *)
| TModel (m : model)          (* a RoborockBase subclass *)
with model :=
| Model (cls_name : string)
        (ignore_keys : list string)
        (fields : list field)
        (dunder_init model_post_init dunder_post_init : option method)
with field :=
| Field (fname : string) (ftyp : ftype) (fdefault : option value).

(** The parts of a class: its name, its [_ignore_keys], its fields in
    declaration order, and three methods a class may define:
    - [dunder_init]: the statements that follow the call of
      [super().__init__] in an overriding [__init__];
    - [model_post_init]: [model_post_init(self, __context)];
    - [dunder_post_init]: [__post_init__(self)], a method pydantic's
      [BaseModel] never calls. *)
Definition cls_name (m : model) : string :=
  match m with Model n _ _ _ _ _ => n end.
Definition ignore_keys (m : model) : list string :=
  match m with Model _ k _ _ _ _ => k end.
Definition fields (m : model) : list field :=
  match m with Model _ _ fs _ _ _ => fs end.
Definition dunder_init (m : model) : option method :=
  match m with Model _ _ _ b _ _ => b end.
Definition model_post_init (m : model) : option method :=
  match m with Model _ _ _ _ b _ => b end.
Definition dunder_post_init (m : model) : option method :=
  match m with Model _ _ _ _ _ b => b end.

(** A field: its name, its annotation and its default ([None]: the field is
    required). *)
Definition fname (f : field) : string :=
  match f with Field n _ _ => n end.
Definition ftyp (f : field) : ftype :=
  match f with Field _ t _ => t end.
Definition fdefault (f : field) : option value :=
  match f with Field _ _ d => d end.

Definition field_names (m : model) : list string := map fname (fields m).

(** ** The runtime the codec relies on *)

(** What the Python runtime and pydantic decide and the sources do not:
    - [lax p v]: pydantic's conversion, in its default lax mode, of a value
      [v] that is not of the annotated scalar kind [p] ([None]: rejected);
    - [fromtimestamp_raises t]: the exception [datetime.fromtimestamp(t)]
      raises when [t] is outside the platform's range;
    - [json_loads s]: [json.loads(s)]. *)
Record platform := {
  lax : prim -> value -> option value;
  fromtimestamp_raises : Z -> option exn;
  json_loads : string -> result value
}.

(** ** pydantic: validation and construction *)

Definition invalid {A} (kind : string) : result A :=
  Raise (ValidationError [([], kind)]).

(** A nested error is reported under the segment it was met at. *)
Definition under (segment : string) (e : exn) : exn :=
  match e with
  | ValidationError errors =>
      ValidationError (map (fun le => (segment :: fst le, snd le)) errors)
  | _ => e
  end.

(** Validation goes through the items in order and gathers pydantic's
    validation errors; any other exception ends it at once. *)
Definition gather {A B} (segment : string) (add : A -> B -> B)
  (head : result A) (rest : result B) : result B :=
  match head with
  | Ok a =>
      match rest with
      | Ok b => Ok (add a b)
      | Raise e => Raise e
      end
  | Raise (ValidationError _ as e) =>
      match under segment e, rest with
      | ValidationError l1, Raise (ValidationError l2) =>
          Raise (ValidationError (l1 ++ l2))
      | _, Raise e2 => Raise e2
      | e1, Ok _ => Raise e1
      end
  | Raise e => Raise e
  end.

Definition has_kind (p : prim) (v : value) : bool :=
  match p, v with
  | PInt, VInt _ | PStr, VStr _ | PBool, VBool _ | PFloat, VFloat _
  | PTime, VTime _ _ | PDatetime, VDatetime _ => true
  | _, _ => false
  end.

Definition kind_name (p : prim) : string :=
  match p with
  | PInt => "int_type" | PStr => "string_type" | PBool => "bool_type"
  | PFloat => "float_type" | PTime => "time_type" | PDatetime => "datetime_type"
  end.

Definition index_segment (i : nat) : string :=
  NilEmpty.string_of_uint (Nat.to_uint i).

Section Validation.

Variable P : platform.

(** A value of the annotated kind passes unchanged; any other goes through
    pydantic's lax conversion, whose result is of the annotated kind. *)
Definition validate_prim (p : prim) (v : value) : result value :=
  if has_kind p v then Ok v
  else match lax P p v with
       | Some v' => if has_kind p v' then Ok v' else invalid (kind_name p)
       | None => invalid (kind_name p)
       end.

(** Modelled from the spec: the enumeration classes are not part of the
    sources.  A value destined for an enum field is looked up, as a code, in
    the field's table; decoding fails when it is not registered.  A member
    of the same enumeration passes unchanged. *)
Definition validate_enum (e : enum_table) (v : value) : result value :=
  match v with
  | VEnum e' _ _ => if enum_table_eqb e' e then Ok v else invalid "enum"
  | VInt z =>
      match member_of_code (enum_members e) (CInt z) with
      | Some n => Ok (VEnum e n (CInt z))
      | None => invalid "enum"
      end
  | VStr s =>
      match member_of_code (enum_members e) (CStr s) with
      | Some n => Ok (VEnum e n (CStr s))
      | None => invalid "enum"
      end
  | _ => invalid "enum"
  end.

Fixpoint validate_items (validate : value -> result value) (i : nat)
  (l : list value) : result (list value) :=
  match l with
  | [] => Ok []
  | x :: l' =>
      gather (index_segment i) cons (validate x) (validate_items validate (S i) l')
  end.

(** The field stage: a declared field takes the value the input gives under
    its name, validated, or else its default; a required field that is
    absent is an error; input keys that name no field are not looked at. *)
Fixpoint validate_fields (validate : ftype -> value -> result value)
  (input : items) (fs : list field) : result items :=
  match fs with
  | [] => Ok []
  | f :: fs' =>
      gather (fname f) (fun v rest => (fname f, v) :: rest)
        (match dict_get (fname f) input with
         | Some x => validate (ftyp f) x
         | None =>
             match fdefault f with
             | Some v => Ok v
             | None => invalid "missing"
             end
         end)
        (validate_fields validate input fs')
  end.

(** The methods that run when an instance is made: [model_post_init] at the
    end of [BaseModel.__init__], then the rest of an overriding [__init__].
    [__post_init__] is not among them. *)
Definition run_hooks (m : model) (self : items) : result items :=
  self <- match model_post_init m with
          | Some body => body self
          | None => Ok self
          end ;;
  match dunder_init m with
  | Some body => body self
  | None => Ok self
  end.

Fixpoint validate (t : ftype) (v : value) {struct t} : result value :=
  match t with
  | TAny => Ok v
  | TNone => match v with VNone => Ok VNone | _ => invalid "none_required" end
  | TPrim p => validate_prim p v
  | TDict => match v with VDict _ => Ok v | _ => invalid "dict_type" end
  | TListAny => match v with VList _ => Ok v | _ => invalid "list_type" end
  | TEnum e => validate_enum e v
  | TOpt t' => match v with VNone => Ok VNone | _ => validate t' v end
  | TList t' =>
      match v with
      | VList l => l' <- validate_items (validate t') 0 l ;; Ok (VList l')
      | _ => invalid "list_type"
      end
  | TModel m =>
      match v with
      | VModel cls _ =>
          if String.eqb cls (cls_name m) then Ok v else invalid "model_type"
      | VDict input =>
          self <- validate_fields validate input (fields m) ;;
          self <- run_hooks m self ;;
          Ok (VModel (cls_name m) self)
      | _ => invalid "model_type"
      end
  end.

(** [cls.model_validate(input)], and [cls] called with the items of [input]
    as keyword arguments. *)
Definition model_validate (m : model) (input : items) : result value :=
  validate (TModel m) (VDict input).

(** ** [RoborockBase.from_dict] (lines 104-113) *)

Definition from_dict (cls : model) (data : value) : result value :=
  match data with
  | VDict _ =>
      let decamelized_data := decamelize_obj (ignore_keys cls) data in
      match validate (TModel cls) decamelized_data with
      | Ok obj => Ok obj
      | Raise err =>
          if is_ValueError err
          then Raise (RoborockException "Error validating data with pydantic."
                        (Some err))
          else Raise err
      end
  | _ => model_validate cls []
  end.

End Validation.

(** ** Attribute access on an instance *)

(** [self.name] *)
Definition getattr (self : items) (name : string) : result value :=
  match dict_get name self with
  | Some v => Ok v
  | None => Raise AttributeError
  end.

(** [self.name = v]: pydantic refuses a name that is not a field. *)
Definition setattr (self : items) (name : string) (v : value) : result items :=
  match dict_get name self with
  | Some _ => Ok (dict_set name v self)
  | None => Raise ValueError
  end.

(** ** The derived fields (lines 149-160, 494-506, 639-640, 662-667, 690-718) *)

(** [round(area / 1000000, 1) if area is not None else None]; the field is an
    [int] or [None] once validated. *)
Definition square_meters (area : value) : result value :=
  match area with
  | VNone => Ok VNone
  | VInt a =>
      quotient <- Py.truediv a 1000000 ;;
      rounded <- Py.round1 quotient ;;
      Ok (VFloat rounded)
  | _ => Raise TypeError
  end.

(** [datetime.time(hour=h, minute=m) if h is not None and m is not None else
    None]; the constructor raises [ValueError] outside 0..23 and 0..59. *)
Definition time_of_day (hour minute : value) : result value :=
  match hour, minute with
  | VNone, _ => Ok VNone
  | _, VNone => Ok VNone
  | VInt h, VInt m =>
      if ((0 <=? h) && (h <=? 23) && (0 <=? m) && (m <=? 59))%bool
      then Ok (VTime h m)
      else Raise ValueError
  | _, _ => Raise TypeError
  end.

(** [RoborockBaseTimer.__init__], lines 149-160, after [super().__init__]. *)
Definition RoborockBaseTimer_init (self : items) : result items :=
  start_hour <- getattr self "start_hour" ;;
  start_minute <- getattr self "start_minute" ;;
  start_time <- time_of_day start_hour start_minute ;;
  self <- setattr self "start_time" start_time ;;
  end_hour <- getattr self "end_hour" ;;
  end_minute <- getattr self "end_minute" ;;
  end_time <- time_of_day end_hour end_minute ;;
  setattr self "end_time" end_time.

(** [if self.src is not None: self.dst = self.src.name] *)
Definition name_of_enum (src dst : string) (self : items) : result items :=
  member <- getattr self src ;;
  match member with
  | VNone => Ok self
  | VEnum _ name _ => setattr self dst (VStr name)
  | _ => Raise AttributeError
  end.

(** [Status.model_post_init], lines 494-506. *)
Definition Status_model_post_init (self : items) : result items :=
  clean_area <- getattr self "clean_area" ;;
  area <- square_meters clean_area ;;
  self <- setattr self "square_meter_clean_area" area ;;
  self <- name_of_enum "error_code" "error_code_name" self ;;
  self <- name_of_enum "state" "state_name" self ;;
  self <- name_of_enum "water_box_mode" "water_box_mode_name" self ;;
  fan_power <- getattr self "fan_power" ;;
  self <- match fan_power with
          | VNone => Ok self
          | VEnum e name _ =>
              self <- setattr self "fan_power_options"
                        (VList (map VStr (enum_keys e))) ;;
              setattr self "fan_power_name" (VStr name)
          | _ => Raise AttributeError
          end ;;
  name_of_enum "mop_mode" "mop_mode_name" self.


(** [datetime.datetime.fromtimestamp(t).astimezone(timezone.utc) if t else
    None]: [None] and 0 are both falsy. *)
Definition utc_datetime (P : platform) (t : value) : result value :=
  match t with
  | VNone => Ok VNone
  | VInt t =>
      if t =? 0 then Ok VNone
      else match fromtimestamp_raises P t with
           | Some e => Raise e
           | None => Ok (VDatetime t)
           end
  | _ => Raise TypeError
  end.

(** [CleanRecord.model_post_init], lines 662-667. *)
Definition CleanRecord_model_post_init (P : platform) (self : items)
  : result items :=
  area <- getattr self "area" ;;
  square_meter_area <- square_meters area ;;
  self <- setattr self "square_meter_area" square_meter_area ;;
  begin <- getattr self "begin" ;;
  begin_datetime <- utc_datetime P begin ;;
  self <- setattr self "begin_datetime" begin_datetime ;;
  end_ <- getattr self "end" ;;
  end_datetime <- utc_datetime P end_ ;;
  setattr self "end_datetime" end_datetime.

(** [REPLACE_TIME - work_time if work_time is not None else None] *)
Definition time_left (replace_time : Z) (work_time : value) : result value :=
  match work_time with
  | VNone => Ok VNone
  | VInt t => Ok (VInt (replace_time - t))
  | _ => Raise TypeError
  end.

(** [self.dst = REPLACE_TIME - self.src if self.src is not None else None] *)
Definition set_time_left (replace_time : Z) (src dst : string) (self : items)
  : result items :=
  work_time <- getattr self src ;;
  left <- time_left replace_time work_time ;;
  setattr self dst left.

Module Cls.

Section Classes.

Variable P : platform.
(** The enumeration classes imported from [roborock.code_mappings] (lines
13-43), one table each.  Modelled from the spec: the module is not part of
the sources. *)
Record code_mappings := {
RoborockCategory : enum_table;
RoborockCleanType : enum_table;
RoborockDockDustCollectionModeCode : enum_table;
RoborockDockErrorCode : enum_table;
RoborockDockTypeCode : enum_table;
RoborockDockWashTowelModeCode : enum_table;
RoborockErrorCode : enum_table;
RoborockFanPowerCode : enum_table;
RoborockFanSpeedP10 : enum_table;
RoborockFanSpeedQ7Max : enum_table;
RoborockFanSpeedS6Pure : enum_table;
RoborockFanSpeedS7 : enum_table;
RoborockFanSpeedS7MaxV : enum_table;
RoborockFanSpeedS8MaxVUltra : enum_table;
RoborockFinishReason : enum_table;
RoborockInCleaning : enum_table;
RoborockMopIntensityCode : enum_table;
RoborockMopIntensityP10 : enum_table;
RoborockMopIntensityS5Max : enum_table;
RoborockMopIntensityS6MaxV : enum_table;
RoborockMopIntensityS7 : enum_table;
RoborockMopIntensityS8MaxVUltra : enum_table;
RoborockMopIntensityV2 : enum_table;
RoborockMopModeCode : enum_table;
RoborockMopModeS7 : enum_table;
RoborockMopModeS8MaxVUltra : enum_table;
RoborockMopModeS8ProUltra : enum_table;
RoborockStartType : enum_table;
RoborockStateCode : enum_table
}.

(** The constants imported from [roborock.const] (lines 44-69): the
replacement thresholds and the model identifiers.  The module is not part
of the sources. *)
Record consts := {
CLEANING_BRUSH_REPLACE_TIME : Z;
DUST_COLLECTION_REPLACE_TIME : Z;
FILTER_REPLACE_TIME : Z;
MAIN_BRUSH_REPLACE_TIME : Z;
MOP_ROLLER_REPLACE_TIME : Z;
SENSOR_DIRTY_REPLACE_TIME : Z;
SIDE_BRUSH_REPLACE_TIME : Z;
STRAINER_REPLACE_TIME : Z;
ROBOROCK_G10S_PRO : string;
ROBOROCK_P10 : string;
ROBOROCK_Q7_MAX : string;
ROBOROCK_QREVO_MAXV : string;
ROBOROCK_QREVO_PRO : string;
ROBOROCK_QREVO_S : string;
ROBOROCK_S4_MAX : string;
ROBOROCK_S5_MAX : string;
ROBOROCK_S6 : string;
ROBOROCK_S6_MAXV : string;
ROBOROCK_S6_PURE : string;
ROBOROCK_S7 : string;
ROBOROCK_S7_MAXV : string;
ROBOROCK_S8 : string;
ROBOROCK_S8_MAXV_ULTRA : string;
ROBOROCK_S8_PRO_ULTRA : string
}.


Variable CM : code_mappings.
Variable K : consts.

(** [Consumable.__post_init__], lines 690-718. *)
Definition Consumable_post_init (self : items) : result items :=
self <- set_time_left (MAIN_BRUSH_REPLACE_TIME K)
        "main_brush_work_time" "main_brush_time_left" self ;;
self <- set_time_left (SIDE_BRUSH_REPLACE_TIME K)
        "side_brush_work_time" "side_brush_time_left" self ;;
self <- set_time_left (FILTER_REPLACE_TIME K)
        "filter_work_time" "filter_time_left" self ;;
self <- set_time_left (SENSOR_DIRTY_REPLACE_TIME K)
        "sensor_dirty_time" "sensor_time_left" self ;;
self <- set_time_left (STRAINER_REPLACE_TIME K)
        "strainer_work_times" "strainer_time_left" self ;;
self <- set_time_left (DUST_COLLECTION_REPLACE_TIME K)
        "dust_collection_work_times" "dust_collection_time_left" self ;;
self <- set_time_left (CLEANING_BRUSH_REPLACE_TIME K)
        "cleaning_brush_work_times" "cleaning_brush_time_left" self ;;
set_time_left (MOP_ROLLER_REPLACE_TIME K)
"moproller_work_time" "mop_roller_time_left" self.

(** [RoborockProduct.__post_init__], lines 861-863; [spec] is the class
[RoborockProductSpec]. *)
Definition RoborockProduct_post_init (spec : model) (self : items)
: result items :=
cardspec <- getattr self "cardspec" ;;
if truthy_value cardspec then
match cardspec with
| VStr text =>
    loaded <- json_loads P text ;;
    match loaded with
    | VDict d =>
        let data := match dict_get "data" d with
                    | Some x => x
                    | None => VNone
                    end in
        products_specification <- from_dict P spec data ;;
        setattr self "products_specification" products_specification
    | _ => Raise AttributeError
    end
| _ => Raise TypeError
end
else Ok self.

(** A subclass: the fields of the base class in their order, each one
replaced in place by a redeclaration, then the new ones; the methods
and [_ignore_keys] are inherited. *)
Fixpoint redeclare (f : field) (fs : list field) : list field :=
match fs with
| [] => [f]
| g :: fs' =>
  if String.eqb (fname f) (fname g) then f :: fs'
  else g :: redeclare f fs'
end.

Definition subclass (name : string) (base : model) (own : list field)
: model :=
Model name (ignore_keys base)
(fold_left (fun fs f => redeclare f fs) own (fields base))
(dunder_init base) (model_post_init base) (dunder_post_init base).

(** [RoborockBaseTimer], lines 140-160. *)
Definition RoborockBaseTimer : model :=
Model "RoborockBaseTimer" []
[Field "start_hour" (TOpt (TPrim PInt)) (Some VNone);
 Field "start_minute" (TOpt (TPrim PInt)) (Some VNone);
 Field "end_hour" (TOpt (TPrim PInt)) (Some VNone);
 Field "end_minute" (TOpt (TPrim PInt)) (Some VNone);
 Field "enabled" (TOpt (TPrim PInt)) (Some VNone);
 Field "start_time" (TOpt (TPrim PTime)) (Some VNone);
 Field "end_time" (TOpt (TPrim PTime)) (Some VNone)]
(Some RoborockBaseTimer_init)
None
None.

(** [Reference], lines 163-167. *)
Definition Reference : model :=
Model "Reference" []
[Field "r" (TOpt (TPrim PStr)) (Some VNone);
 Field "a" (TOpt (TPrim PStr)) (Some VNone);
 Field "m" (TOpt (TPrim PStr)) (Some VNone);
 Field "l" (TOpt (TPrim PStr)) (Some VNone)]
None
None
None.

(** [RRiot], lines 170-181. *)
Definition RRiot : model :=
Model "RRiot" []
[Field "u" (TPrim PStr) None;
 Field "s" (TPrim PStr) None;
 Field "h" (TPrim PStr) None;
 Field "k" (TPrim PStr) None;
 Field "r" (TModel Reference) None]
None
None
None.

(** [UserData], lines 184-203. *)
Definition UserData : model :=
Model "UserData" []
[Field "uid" (TOpt (TPrim PInt)) (Some VNone);
 Field "tokentype" (TOpt (TPrim PStr)) (Some VNone);
 Field "token" (TOpt (TPrim PStr)) (Some VNone);
 Field "rruid" (TOpt (TPrim PStr)) (Some VNone);
 Field "region" (TOpt (TPrim PStr)) (Some VNone);
 Field "countrycode" (TOpt (TPrim PStr)) (Some VNone);
 Field "country" (TOpt (TPrim PStr)) (Some VNone);
 Field "nickname" (TOpt (TPrim PStr)) (Some VNone);
 Field "rriot" (TOpt (TModel RRiot)) (Some VNone);
 Field "tuya_device_state" (TOpt (TPrim PInt)) (Some VNone);
 Field "avatarurl" (TOpt (TPrim PStr)) (Some VNone)]
None
None
None.

(** [HomeDataProductSchema], lines 207-214. *)
Definition HomeDataProductSchema : model :=
Model "HomeDataProductSchema" []
[Field "id" (TOpt (TAny)) (Some VNone);
 Field "name" (TOpt (TAny)) (Some VNone);
 Field "code" (TOpt (TAny)) (Some VNone);
 Field "mode" (TOpt (TAny)) (Some VNone);
 Field "type" (TOpt (TAny)) (Some VNone);
 Field "product_property" (TOpt (TAny)) (Some VNone);
 Field "desc" (TOpt (TAny)) (Some VNone)]
None
None
None.

(** [HomeDataProduct], lines 218-227. *)
Definition HomeDataProduct : model :=
Model "HomeDataProduct" []
[Field "id" (TPrim PStr) None;
 Field "name" (TPrim PStr) None;
 Field "model" (TPrim PStr) None;
 Field "category" (TEnum (RoborockCategory CM)) None;
 Field "code" (TOpt (TPrim PStr)) (Some VNone);
 Field "iconurl" (TOpt (TPrim PStr)) (Some VNone);
 Field "attribute" (TOpt (TAny)) (Some VNone);
 Field "capability" (TOpt (TPrim PInt)) (Some VNone);
 Field "schema" (TOpt (TList (TModel HomeDataProductSchema))) (Some VNone)]
None
None
None.

(** [DeviceFeatures], lines 269-326. *)
Definition DeviceFeatures : model :=
Model "DeviceFeatures" []
[Field "map_carpet_add_supported" (TPrim PBool) None;
 Field "show_clean_finish_reason_supported" (TPrim PBool) None;
 Field "resegment_supported" (TPrim PBool) None;
 Field "video_monitor_supported" (TPrim PBool) None;
 Field "any_state_transit_goto_supported" (TPrim PBool) None;
 Field "fw_filter_obstacle_supported" (TPrim PBool) None;
 Field "video_setting_supported" (TPrim PBool) None;
 Field "ignore_unknown_map_object_supported" (TPrim PBool) None;
 Field "set_child_supported" (TPrim PBool) None;
 Field "carpet_supported" (TPrim PBool) None;
 Field "mop_path_supported" (TPrim PBool) None;
 Field "multi_map_segment_timer_supported" (TPrim PBool) None;
 Field "custom_water_box_distance_supported" (TPrim PBool) None;
 Field "wash_then_charge_cmd_supported" (TPrim PBool) None;
 Field "room_name_supported" (TPrim PBool) None;
 Field "current_map_restore_enabled" (TPrim PBool) None;
 Field "photo_upload_supported" (TPrim PBool) None;
 Field "shake_mop_set_supported" (TPrim PBool) None;
 Field "map_beautify_internal_debug_supported" (TPrim PBool) None;
 Field "new_data_for_clean_history" (TPrim PBool) None;
 Field "new_data_for_clean_history_detail" (TPrim PBool) None;
 Field "flow_led_setting_supported" (TPrim PBool) None;
 Field "dust_collection_setting_supported" (TPrim PBool) None;
 Field "rpc_retry_supported" (TPrim PBool) None;
 Field "avoid_collision_supported" (TPrim PBool) None;
 Field "support_set_switch_map_mode" (TPrim PBool) None;
 Field "support_smart_scene" (TPrim PBool) None;
 Field "support_floor_edit" (TPrim PBool) None;
 Field "support_furniture" (TPrim PBool) None;
 Field "support_room_tag" (TPrim PBool) None;
 Field "support_quick_map_builder" (TPrim PBool) None;
 Field "support_smart_global_clean_with_custom_mode" (TPrim PBool) None;
 Field "record_allowed" (TPrim PBool) None;
 Field "careful_slow_map_supported" (TPrim PBool) None;
 Field "egg_mode_supported" (TPrim PBool) None;
 Field "unsave_map_reason_supported" (TPrim PBool) None;
 Field "carpet_show_on_map" (TPrim PBool) None;
 Field "supported_valley_electricity" (TPrim PBool) None;
 Field "drying_supported" (TPrim PBool) None;
 Field "download_test_voice_supported" (TPrim PBool) None;
 Field "support_backup_map" (TPrim PBool) None;
 Field "support_custom_mode_in_cleaning" (TPrim PBool) None;
 Field "support_remote_control_in_call" (TPrim PBool) None;
 Field "support_set_volume_in_call" (TPrim PBool) None;
 Field "support_clean_estimate" (TPrim PBool) None;
 Field "support_custom_dnd" (TPrim PBool) None;
 Field "carpet_deep_clean_supported" (TPrim PBool) None;
 Field "stuck_zone_supported" (TPrim PBool) None;
 Field "custom_door_sill_supported" (TPrim PBool) None;
 Field "clean_route_fast_mode_supported" (TPrim PBool) None;
 Field "cliff_zone_supported" (TPrim PBool) None;
 Field "smart_door_sill_supported" (TPrim PBool) None;
 Field "support_floor_direction" (TPrim PBool) None;
 Field "wifi_manage_supported" (TPrim PBool) None;
 Field "back_charge_auto_wash_supported" (TPrim PBool) None;
 Field "support_incremental_map" (TPrim PBool) None;
 Field "offline_map_supported" (TPrim PBool) None]
None
None
None.

(** [HomeDataDevice], lines 231-259. *)
Definition HomeDataDevice : model :=
Model "HomeDataDevice" []
[Field "duid" (TPrim PStr) None;
 Field "name" (TPrim PStr) None;
 Field "local_key" (TPrim PStr) None;
 Field "fv" (TPrim PStr) None;
 Field "product_id" (TPrim PStr) None;
 Field "attribute" (TOpt (TAny)) (Some VNone);
 Field "active_time" (TOpt (TPrim PInt)) (Some VNone);
 Field "runtime_env" (TOpt (TAny)) (Some VNone);
 Field "time_zone_id" (TOpt (TPrim PStr)) (Some VNone);
 Field "icon_url" (TOpt (TPrim PStr)) (Some VNone);
 Field "lon" (TOpt (TAny)) (Some VNone);
 Field "lat" (TOpt (TAny)) (Some VNone);
 Field "share" (TOpt (TAny)) (Some VNone);
 Field "share_time" (TOpt (TAny)) (Some VNone);
 Field "online" (TOpt (TPrim PBool)) (Some VNone);
 Field "pv" (TOpt (TPrim PStr)) (Some VNone);
 Field "room_id" (TOpt (TAny)) (Some VNone);
 Field "tuya_uuid" (TOpt (TAny)) (Some VNone);
 Field "tuya_migrated" (TOpt (TPrim PBool)) (Some VNone);
 Field "extra" (TOpt (TAny)) (Some VNone);
 Field "sn" (TOpt (TPrim PStr)) (Some VNone);
 Field "feature_set" (TOpt (TPrim PStr)) (Some VNone);
 Field "new_feature_set" (TOpt (TPrim PStr)) (Some VNone);
 Field "device_status" (TOpt (TDict)) (Some VNone);
 Field "silent_ota_switch" (TOpt (TPrim PBool)) (Some VNone);
 Field "setting" (TOpt (TAny)) (Some VNone);
 Field "f" (TOpt (TPrim PBool)) (Some VNone);
 Field "device_features" (TOpt (TModel DeviceFeatures)) (Some VNone)]
None
None
None.

(** [HomeDataRoom], lines 400-402. *)
Definition HomeDataRoom : model :=
Model "HomeDataRoom" []
[Field "id" (TPrim PInt) None;
 Field "name" (TPrim PStr) None]
None
None
None.

(** [HomeData], lines 405-422. *)
Definition HomeData : model :=
Model "HomeData" []
[Field "id" (TPrim PInt) None;
 Field "name" (TPrim PStr) None;
 Field "products" (TList (TModel HomeDataProduct)) (Some (VList []));
 Field "devices" (TList (TModel HomeDataDevice)) (Some (VList []));
 Field "received_devices" (TList (TModel HomeDataDevice)) (Some (VList []));
 Field "lon" (TOpt (TAny)) (Some VNone);
 Field "lat" (TOpt (TAny)) (Some VNone);
 Field "geo_name" (TOpt (TAny)) (Some VNone);
 Field "rooms" (TList (TModel HomeDataRoom)) (Some (VList []))]
None
None
None.

(** [LoginData], lines 426-429. *)
Definition LoginData : model :=
Model "LoginData" []
[Field "user_data" (TModel UserData) None;
 Field "email" (TPrim PStr) None;
 Field "home_data" (TOpt (TModel HomeData)) (Some VNone)]
None
None
None.

(** [Status], lines 433-521. *)
Definition Status : model :=
Model "Status" []
[Field "msg_ver" (TOpt (TPrim PInt)) (Some VNone);
 Field "msg_seq" (TOpt (TPrim PInt)) (Some VNone);
 Field "state" (TOpt (TEnum (RoborockStateCode CM))) (Some VNone);
 Field "battery" (TOpt (TPrim PInt)) (Some VNone);
 Field "clean_time" (TOpt (TPrim PInt)) (Some VNone);
 Field "clean_area" (TOpt (TPrim PInt)) (Some VNone);
 Field "square_meter_clean_area" (TOpt (TPrim PFloat)) (Some VNone);
 Field "error_code" (TOpt (TEnum (RoborockErrorCode CM))) (Some VNone);
 Field "map_present" (TOpt (TPrim PInt)) (Some VNone);
 Field "in_cleaning" (TOpt (TEnum (RoborockInCleaning CM))) (Some VNone);
 Field "in_returning" (TOpt (TPrim PInt)) (Some VNone);
 Field "in_fresh_state" (TOpt (TPrim PInt)) (Some VNone);
 Field "lab_status" (TOpt (TPrim PInt)) (Some VNone);
 Field "water_box_status" (TOpt (TPrim PInt)) (Some VNone);
 Field "back_type" (TOpt (TPrim PInt)) (Some VNone);
 Field "wash_phase" (TOpt (TPrim PInt)) (Some VNone);
 Field "wash_ready" (TOpt (TPrim PInt)) (Some VNone);
 Field "fan_power" (TOpt (TEnum (RoborockFanPowerCode CM))) (Some VNone);
 Field "dnd_enabled" (TOpt (TPrim PInt)) (Some VNone);
 Field "map_status" (TOpt (TPrim PInt)) (Some VNone);
 Field "is_locating" (TOpt (TPrim PInt)) (Some VNone);
 Field "lock_status" (TOpt (TPrim PInt)) (Some VNone);
 Field "water_box_mode" (TOpt (TEnum (RoborockMopIntensityCode CM))) (Some VNone);
 Field "water_box_carriage_status" (TOpt (TPrim PInt)) (Some VNone);
 Field "mop_forbidden_enable" (TOpt (TPrim PInt)) (Some VNone);
 Field "camera_status" (TOpt (TPrim PInt)) (Some VNone);
 Field "is_exploring" (TOpt (TPrim PInt)) (Some VNone);
 Field "home_sec_status" (TOpt (TPrim PInt)) (Some VNone);
 Field "home_sec_enable_password" (TOpt (TPrim PInt)) (Some VNone);
 Field "adbumper_status" (TOpt (TList (TPrim PInt))) (Some VNone);
 Field "water_shortage_status" (TOpt (TPrim PInt)) (Some VNone);
 Field "dock_type" (TOpt (TEnum (RoborockDockTypeCode CM))) (Some VNone);
 Field "dust_collection_status" (TOpt (TPrim PInt)) (Some VNone);
 Field "auto_dust_collection" (TOpt (TPrim PInt)) (Some VNone);
 Field "avoid_count" (TOpt (TPrim PInt)) (Some VNone);
 Field "mop_mode" (TOpt (TEnum (RoborockMopModeCode CM))) (Some VNone);
 Field "debug_mode" (TOpt (TPrim PInt)) (Some VNone);
 Field "collision_avoid_status" (TOpt (TPrim PInt)) (Some VNone);
 Field "switch_map_mode" (TOpt (TPrim PInt)) (Some VNone);
 Field "dock_error_status" (TOpt (TEnum (RoborockDockErrorCode CM))) (Some VNone);
 Field "charge_status" (TOpt (TPrim PInt)) (Some VNone);
 Field "unsave_map_reason" (TOpt (TPrim PInt)) (Some VNone);
 Field "unsave_map_flag" (TOpt (TPrim PInt)) (Some VNone);
 Field "wash_status" (TOpt (TPrim PInt)) (Some VNone);
 Field "distance_off" (TOpt (TPrim PInt)) (Some VNone);
 Field "in_warmup" (TOpt (TPrim PInt)) (Some VNone);
 Field "dry_status" (TOpt (TPrim PInt)) (Some VNone);
 Field "rdt" (TOpt (TPrim PInt)) (Some VNone);
 Field "clean_percent" (TOpt (TPrim PInt)) (Some VNone);
 Field "rss" (TOpt (TPrim PInt)) (Some VNone);
 Field "dss" (TOpt (TPrim PInt)) (Some VNone);
 Field "common_status" (TOpt (TPrim PInt)) (Some VNone);
 Field "corner_clean_mode" (TOpt (TPrim PInt)) (Some VNone);
 Field "error_code_name" (TOpt (TPrim PStr)) (Some VNone);
 Field "state_name" (TOpt (TPrim PStr)) (Some VNone);
 Field "water_box_mode_name" (TOpt (TPrim PStr)) (Some VNone);
 Field "fan_power_options" (TList (TPrim PStr)) (Some (VList []));
 Field "fan_power_name" (TOpt (TPrim PStr)) (Some VNone);
 Field "mop_mode_name" (TOpt (TPrim PStr)) (Some VNone)]
None
(Some Status_model_post_init)
None.

(** [S4MaxStatus], lines 525-528. *)
Definition S4MaxStatus : model :=
subclass "S4MaxStatus" Status
[Field "fan_power" (TOpt (TEnum (RoborockFanSpeedS6Pure CM))) (Some VNone);
 Field "water_box_mode" (TOpt (TEnum (RoborockMopIntensityS7 CM))) (Some VNone);
 Field "mop_mode" (TOpt (TEnum (RoborockMopModeS7 CM))) (Some VNone)].

(** [S5MaxStatus], lines 532-534. *)
Definition S5MaxStatus : model :=
subclass "S5MaxStatus" Status
[Field "fan_power" (TOpt (TEnum (RoborockFanSpeedS6Pure CM))) (Some VNone);
 Field "water_box_mode" (TOpt (TEnum (RoborockMopIntensityS5Max CM))) (Some VNone)].

(** [Q7MaxStatus], lines 538-540. *)
Definition Q7MaxStatus : model :=
subclass "Q7MaxStatus" Status
[Field "fan_power" (TOpt (TEnum (RoborockFanSpeedQ7Max CM))) (Some VNone);
 Field "water_box_mode" (TOpt (TEnum (RoborockMopIntensityV2 CM))) (Some VNone)].

(** [S6MaxVStatus], lines 544-546. *)
Definition S6MaxVStatus : model :=
subclass "S6MaxVStatus" Status
[Field "fan_power" (TOpt (TEnum (RoborockFanSpeedS7MaxV CM))) (Some VNone);
 Field "water_box_mode" (TOpt (TEnum (RoborockMopIntensityS6MaxV CM))) (Some VNone)].

(** [S6PureStatus], lines 550-551. *)
Definition S6PureStatus : model :=
subclass "S6PureStatus" Status
[Field "fan_power" (TOpt (TEnum (RoborockFanSpeedS6Pure CM))) (Some VNone)].

(** [S7MaxVStatus], lines 555-558. *)
Definition S7MaxVStatus : model :=
subclass "S7MaxVStatus" Status
[Field "fan_power" (TOpt (TEnum (RoborockFanSpeedS7MaxV CM))) (Some VNone);
 Field "water_box_mode" (TOpt (TEnum (RoborockMopIntensityS7 CM))) (Some VNone);
 Field "mop_mode" (TOpt (TEnum (RoborockMopModeS7 CM))) (Some VNone)].

(** [S7Status], lines 562-565. *)
Definition S7Status : model :=
subclass "S7Status" Status
[Field "fan_power" (TOpt (TEnum (RoborockFanSpeedS7 CM))) (Some VNone);
 Field "water_box_mode" (TOpt (TEnum (RoborockMopIntensityS7 CM))) (Some VNone);
 Field "mop_mode" (TOpt (TEnum (RoborockMopModeS7 CM))) (Some VNone)].

(** [S8ProUltraStatus], lines 569-572. *)
Definition S8ProUltraStatus : model :=
subclass "S8ProUltraStatus" Status
[Field "fan_power" (TOpt (TEnum (RoborockFanSpeedS7MaxV CM))) (Some VNone);
 Field "water_box_mode" (TOpt (TEnum (RoborockMopIntensityS7 CM))) (Some VNone);
 Field "mop_mode" (TOpt (TEnum (RoborockMopModeS8ProUltra CM))) (Some VNone)].

(** [S8Status], lines 576-579. *)
Definition S8Status : model :=
subclass "S8Status" Status
[Field "fan_power" (TOpt (TEnum (RoborockFanSpeedS7MaxV CM))) (Some VNone);
 Field "water_box_mode" (TOpt (TEnum (RoborockMopIntensityS7 CM))) (Some VNone);
 Field "mop_mode" (TOpt (TEnum (RoborockMopModeS8ProUltra CM))) (Some VNone)].

(** [P10Status], lines 583-586. *)
Definition P10Status : model :=
subclass "P10Status" Status
[Field "fan_power" (TOpt (TEnum (RoborockFanSpeedP10 CM))) (Some VNone);
 Field "water_box_mode" (TOpt (TEnum (RoborockMopIntensityP10 CM))) (Some VNone);
 Field "mop_mode" (TOpt (TEnum (RoborockMopModeS8ProUltra CM))) (Some VNone)].

(** [S8MaxvUltraStatus], lines 590-593. *)
Definition S8MaxvUltraStatus : model :=
subclass "S8MaxvUltraStatus" Status
[Field "fan_power" (TOpt (TEnum (RoborockFanSpeedS8MaxVUltra CM))) (Some VNone);
 Field "water_box_mode" (TOpt (TEnum (RoborockMopIntensityS8MaxVUltra CM))) (Some VNone);
 Field "mop_mode" (TOpt (TEnum (RoborockMopModeS8MaxVUltra CM))) (Some VNone)].

(** [DnDTimer], lines 620-621. *)
Definition DnDTimer : model :=
subclass "DnDTimer" RoborockBaseTimer
[].

(** [ValleyElectricityTimer], lines 625-626. *)
Definition ValleyElectricityTimer : model :=
subclass "ValleyElectricityTimer" RoborockBaseTimer
[].


(** [CleanRecord], lines 644-667. *)
Definition CleanRecord : model :=
Model "CleanRecord" []
[Field "begin" (TOpt (TPrim PInt)) (Some VNone);
 Field "begin_datetime" (TOpt (TPrim PDatetime)) (Some VNone);
 Field "end" (TOpt (TPrim PInt)) (Some VNone);
 Field "end_datetime" (TOpt (TPrim PDatetime)) (Some VNone);
 Field "duration" (TOpt (TPrim PInt)) (Some VNone);
 Field "area" (TOpt (TPrim PInt)) (Some VNone);
 Field "square_meter_area" (TOpt (TPrim PFloat)) (Some VNone);
 Field "error" (TOpt (TPrim PInt)) (Some VNone);
 Field "complete" (TOpt (TPrim PInt)) (Some VNone);
 Field "start_type" (TOpt (TEnum (RoborockStartType CM))) (Some VNone);
 Field "clean_type" (TOpt (TEnum (RoborockCleanType CM))) (Some VNone);
 Field "finish_reason" (TOpt (TEnum (RoborockFinishReason CM))) (Some VNone);
 Field "dust_collection_status" (TOpt (TPrim PInt)) (Some VNone);
 Field "avoid_count" (TOpt (TPrim PInt)) (Some VNone);
 Field "wash_count" (TOpt (TPrim PInt)) (Some VNone);
 Field "map_flag" (TOpt (TPrim PInt)) (Some VNone)]
None
(Some (CleanRecord_model_post_init P))
None.

(** [Consumable], lines 671-718. *)
Definition Consumable : model :=
Model "Consumable" []
[Field "main_brush_work_time" (TOpt (TPrim PInt)) (Some VNone);
 Field "side_brush_work_time" (TOpt (TPrim PInt)) (Some VNone);
 Field "filter_work_time" (TOpt (TPrim PInt)) (Some VNone);
 Field "filter_element_work_time" (TOpt (TPrim PInt)) (Some VNone);
 Field "sensor_dirty_time" (TOpt (TPrim PInt)) (Some VNone);
 Field "strainer_work_times" (TOpt (TPrim PInt)) (Some VNone);
 Field "dust_collection_work_times" (TOpt (TPrim PInt)) (Some VNone);
 Field "cleaning_brush_work_times" (TOpt (TPrim PInt)) (Some VNone);
 Field "moproller_work_time" (TOpt (TPrim PInt)) (Some VNone);
 Field "main_brush_time_left" (TOpt (TPrim PInt)) (Some VNone);
 Field "side_brush_time_left" (TOpt (TPrim PInt)) (Some VNone);
 Field "filter_time_left" (TOpt (TPrim PInt)) (Some VNone);
 Field "sensor_time_left" (TOpt (TPrim PInt)) (Some VNone);
 Field "strainer_time_left" (TOpt (TPrim PInt)) (Some VNone);
 Field "dust_collection_time_left" (TOpt (TPrim PInt)) (Some VNone);
 Field "cleaning_brush_time_left" (TOpt (TPrim PInt)) (Some VNone);
 Field "mop_roller_time_left" (TOpt (TPrim PInt)) (Some VNone)]
None
None
(Some Consumable_post_init).

(** [MultiMapsListMapInfoBakMaps], lines 722-724. *)
Definition MultiMapsListMapInfoBakMaps : model :=
Model "MultiMapsListMapInfoBakMaps" []
[Field "mapflag" (TOpt (TAny)) (Some VNone);
 Field "add_time" (TOpt (TAny)) (Some VNone)]
None
None
None.

(** [MultiMapsListMapInfo], lines 728-735. *)
Definition MultiMapsListMapInfo : model :=
Model "MultiMapsListMapInfo" ["mapFlag"]
[Field "mapFlag" (TPrim PInt) None;
 Field "name" (TPrim PStr) None;
 Field "add_time" (TOpt (TAny)) (Some VNone);
 Field "length" (TOpt (TAny)) (Some VNone);
 Field "bak_maps" (TOpt (TList (TModel MultiMapsListMapInfoBakMaps))) (Some VNone)]
None
None
None.

(** [MultiMapsList], lines 739-745. *)
Definition MultiMapsList : model :=
Model "MultiMapsList" ["mapFlag"]
[Field "max_multi_map" (TOpt (TPrim PInt)) (Some VNone);
 Field "max_bak_map" (TOpt (TPrim PInt)) (Some VNone);
 Field "multi_map_count" (TOpt (TPrim PInt)) (Some VNone);
 Field "map_info" (TOpt (TList (TModel MultiMapsListMapInfo))) (Some VNone)]
None
None
None.

(** [SmartWashParams], lines 749-751. *)
Definition SmartWashParams : model :=
Model "SmartWashParams" []
[Field "smart_wash" (TOpt (TPrim PInt)) (Some VNone);
 Field "wash_interval" (TOpt (TPrim PInt)) (Some VNone)]
None
None
None.

(** [DustCollectionMode], lines 755-756. *)
Definition DustCollectionMode : model :=
Model "DustCollectionMode" []
[Field "mode" (TOpt (TEnum (RoborockDockDustCollectionModeCode CM))) (Some VNone)]
None
None
None.

(** [WashTowelMode], lines 760-761. *)
Definition WashTowelMode : model :=
Model "WashTowelMode" []
[Field "wash_mode" (TOpt (TEnum (RoborockDockWashTowelModeCode CM))) (Some VNone)]
None
None
None.

(** [NetworkInfo], lines 765-770. *)
Definition NetworkInfo : model :=
Model "NetworkInfo" []
[Field "ip" (TPrim PStr) None;
 Field "ssid" (TOpt (TPrim PStr)) (Some VNone);
 Field "mac" (TOpt (TPrim PStr)) (Some VNone);
 Field "bssid" (TOpt (TPrim PStr)) (Some VNone);
 Field "rssi" (TOpt (TPrim PInt)) (Some VNone)]
None
None
None.

(** [DeviceData], lines 774-777. *)
Definition DeviceData : model :=
Model "DeviceData" []
[Field "device" (TModel HomeDataDevice) None;
 Field "model" (TPrim PStr) None;
 Field "host" (TOpt (TPrim PStr)) (Some VNone)]
None
None
None.

(** [RoomMapping], lines 781-783. *)
Definition RoomMapping : model :=
Model "RoomMapping" []
[Field "segment_id" (TPrim PInt) None;
 Field "iot_id" (TPrim PStr) None]
None
None
None.

(** [ChildLockStatus], lines 787-788. *)
Definition ChildLockStatus : model :=
Model "ChildLockStatus" []
[Field "lock_status" (TPrim PInt) None]
None
None
None.

(** [FlowLedStatus], lines 792-793. *)
Definition FlowLedStatus : model :=
Model "FlowLedStatus" []
[Field "status" (TPrim PInt) None]
None
None
None.

(** [BroadcastMessage], lines 797-799. *)
Definition BroadcastMessage : model :=
Model "BroadcastMessage" []
[Field "duid" (TPrim PStr) None;
 Field "ip" (TPrim PStr) None]
None
None
None.

(** [RoborockProductStateValue], lines 809-811. *)
Definition RoborockProductStateValue : model :=
Model "RoborockProductStateValue" []
[Field "value" (TListAny) None;
 Field "desc" (TDict) None]
None
None
None.

(** [RoborockProductState], lines 815-818. *)
Definition RoborockProductState : model :=
Model "RoborockProductState" []
[Field "dps" (TPrim PInt) None;
 Field "desc" (TDict) None;
 Field "value" (TList (TModel RoborockProductStateValue)) None]
None
None
None.

(** [RoborockProductSpec], lines 822-834. *)
Definition RoborockProductSpec : model :=
Model "RoborockProductSpec" []
[Field "state" (TModel RoborockProductState) None;
 Field "battery" (TOpt (TDict)) (Some VNone);
 Field "dry_countdown" (TOpt (TDict)) (Some VNone);
 Field "extra" (TOpt (TDict)) (Some VNone);
 Field "offpeak" (TOpt (TDict)) (Some VNone);
 Field "countdown" (TOpt (TDict)) (Some VNone);
 Field "mode" (TOpt (TDict)) (Some VNone);
 Field "ota_nfo" (TOpt (TDict)) (Some VNone);
 Field "pause" (TOpt (TDict)) (Some VNone);
 Field "program" (TOpt (TDict)) (Some VNone);
 Field "shutdown" (TOpt (TDict)) (Some VNone);
 Field "washing_left" (TOpt (TDict)) (Some VNone)]
None
None
None.

(** [RoborockProduct], lines 838-863. *)
Definition RoborockProduct : model :=
Model "RoborockProduct" []
[Field "id" (TPrim PInt) None;
 Field "name" (TPrim PStr) None;
 Field "model" (TPrim PStr) None;
 Field "packagename" (TPrim PStr) None;
 Field "ssid" (TPrim PStr) None;
 Field "picurl" (TPrim PStr) None;
 Field "cardpicurl" (TPrim PStr) None;
 Field "medium_cardpicurl" (TPrim PStr) None;
 Field "resetwifipicurl" (TPrim PStr) None;
 Field "resetwifitext" (TDict) None;
 Field "tuyaid" (TPrim PStr) None;
 Field "status" (TPrim PInt) None;
 Field "rriotid" (TPrim PStr) None;
 Field "cardspec" (TPrim PStr) None;
 Field "pictures" (TListAny) None;
 Field "nc_mode" (TPrim PStr) None;
 Field "scope" (TNone) None;
 Field "product_tags" (TListAny) None;
 Field "agreements" (TListAny) None;
 Field "plugin_pic_url" (TNone) None;
 Field "products_specification" (TOpt (TModel RoborockProductSpec)) (Some VNone)]
None
None
(Some (RoborockProduct_post_init RoborockProductSpec)).

(** [RoborockProductCategory], lines 867-870. *)
Definition RoborockProductCategory : model :=
Model "RoborockProductCategory" []
[Field "id" (TPrim PInt) None;
 Field "display_name" (TPrim PStr) None;
 Field "icon_url" (TPrim PStr) None]
None
None
None.

(** [RoborockCategoryDetail], lines 874-876. *)
Definition RoborockCategoryDetail : model :=
Model "RoborockCategoryDetail" []
[Field "category" (TModel RoborockProductCategory) None;
 Field "product_list" (TList (TModel RoborockProduct)) None]
None
None
None.

(** [ProductResponse], lines 880-881. *)
Definition ProductResponse : model :=
Model "ProductResponse" []
[Field "category_detail_list" (TList (TModel RoborockCategoryDetail)) None]
None
None
None.

(** [DyadProductInfo], lines 885-892. *)
Definition DyadProductInfo : model :=
Model "DyadProductInfo" []
[Field "sn" (TPrim PStr) None;
 Field "ssid" (TPrim PStr) None;
 Field "timezone" (TPrim PStr) None;
 Field "posix_timezone" (TPrim PStr) None;
 Field "ip" (TPrim PStr) None;
 Field "mac" (TPrim PStr) None;
 Field "oba" (TDict) None]
None
None
None.

(** [DyadSndState], lines 896-901. *)
Definition DyadSndState : model :=
Model "DyadSndState" []
[Field "sid_in_use" (TPrim PInt) None;
 Field "sid_version" (TPrim PInt) None;
 Field "location" (TPrim PStr) None;
 Field "bom" (TPrim PStr) None;
 Field "language" (TPrim PStr) None]
None
None
None.

(** [DyadOtaNfo], lines 905-906. *)
Definition DyadOtaNfo : model :=
Model "DyadOtaNfo" []
[Field "mqttOtaData" (TDict) None]
None
None
None.

(** [ModelStatus], lines 596-616. *)
Definition ModelStatus : list (string * model) :=
[(ROBOROCK_S4_MAX K, S4MaxStatus);
 (ROBOROCK_S5_MAX K, S5MaxStatus);
 (ROBOROCK_Q7_MAX K, Q7MaxStatus);
 (ROBOROCK_S6 K, S6PureStatus);
 (ROBOROCK_S6_MAXV K, S6MaxVStatus);
 (ROBOROCK_S6_PURE K, S6PureStatus);
 (ROBOROCK_S7_MAXV K, S7MaxVStatus);
 (ROBOROCK_S7 K, S7Status);
 (ROBOROCK_S8 K, S8Status);
 (ROBOROCK_S8_PRO_ULTRA K, S8ProUltraStatus);
 (ROBOROCK_G10S_PRO K, S7MaxVStatus);
 (ROBOROCK_P10 K, P10Status);
 (ROBOROCK_QREVO_S K, P10Status);
 (ROBOROCK_QREVO_MAXV K, P10Status);
 (ROBOROCK_QREVO_PRO K, P10Status);
 (ROBOROCK_S8_MAXV_ULTRA K, S8MaxvUltraStatus)].

End Classes.

End Cls.

(** ** The [Status] accessors (lines 508-521) *)

(** The common body of the three accessors: [field] is the enum attribute
    read, [msg] the message of the exception raised when it is [None].
    Modelled from the spec: [as_dict()] of the enumeration class is its
    name-to-code table. *)
Definition code_of_name (field msg : string) (self : value) (name : string)
  : result value :=
  match self with
  | VModel _ fs =>
      member <- getattr fs field ;;
      match member with
      | VNone => Raise (RoborockException msg None)
      | VEnum e _ _ =>
          Ok (match dict_get name (enum_as_dict e) with
              | Some c => value_of_code c
              | None => VNone
              end)
      | _ => Raise AttributeError
      end
  | _ => Raise AttributeError
  end.

(** [Status.get_fan_speed_code], lines 508-511. *)
Definition get_fan_speed_code (self : value) (fan_speed : string) : result value :=
  code_of_name "fan_power"
    "Attempted to get fan speed before status has been updated." self fan_speed.

(** [Status.get_mop_intensity_code], lines 513-516. *)
Definition get_mop_intensity_code (self : value) (mop_intensity : string)
  : result value :=
  code_of_name "water_box_mode"
    "Attempted to get mop_intensity before status has been updated."
    self mop_intensity.

(** [Status.get_mop_mode_code], lines 518-521. *)
Definition get_mop_mode_code (self : value) (mop_mode : string) : result value :=
  code_of_name "mop_mode"
    "Attempted to get mop_mode before status has been updated." self mop_mode.

(** ** A reference runtime, for running the codec on sample payloads *)

(** pydantic without any lax conversion, a [fromtimestamp] that accepts
    the years 1 to 9999, and a [json.loads] that accepts nothing. *)
Definition strict : platform := {|
  lax := fun _ _ => None;
  fromtimestamp_raises := fun t =>
    if ((-62135596800 <=? t) && (t <=? 253402300799))%bool
    then None else Some ValueError;
  json_loads := fun _ => Raise ValueError
|}.

(** ** Vocabulary of the statements about names and payloads *)

Module Name.

Fixpoint all_chars (p : ascii -> bool) (s : string) : bool :=
  match s with
  | EmptyString => true
  | String c s' => (p c && all_chars p s')%bool
  end.

(** No capital letter A-Z. *)
Definition no_upper (s : string) : bool :=
  all_chars (fun c => negb (Str.is_upper c)) s.

(** No underscore. *)
Definition no_underscore (s : string) : bool :=
  all_chars (fun c => negb (Ascii.eqb c "_"%char)) s.





End Name.

(** A payload without instances of [RoborockBase] classes, at any depth: what
    parsing a JSON body gives, and what [as_dict] returns. *)
Fixpoint plain (v : value) : bool :=
  match v with
  | VModel _ _ => false
  | VList l => forallb plain l
  | VDict d =>
      (fix plain_items (d : items) : bool :=
         match d with
         | [] => true
         | (_, x) :: d' => (plain x && plain_items d')%bool
         end) d
  | _ => true
  end.

(** The keys of a dictionary, in order. *)
Definition keys {A} (d : list (string * A)) : list string := map fst d.

(** What [decamelize_obj] does to an item of a list or to the value of a
    dictionary item (lines 126 and 133-135). *)
Definition decamelize_item (ignore_keys : list string) (b : value) : value :=
  if is_container b then decamelize_obj ignore_keys b else b.

(** What [decamelize_obj] makes of a dictionary item (lines 132-137). *)
Definition item_of (ignore_keys : list string) (ab : string * value)
  : string * value :=
  (decamelize_key ignore_keys (fst ab), decamelize_item ignore_keys (snd ab)).

(** The insertions of a dictionary display into [acc], in order. *)
Definition insert_all {A} (l acc : list (string * A)) : list (string * A) :=
  fold_left (fun acc kv => dict_set (fst kv) (snd kv) acc) l acc.

(** The value the field stage computes for one declared field (the head of
    [validate_fields]). *)
Definition field_input (validate : ftype -> value -> result value)
  (input : items) (f : field) : result value :=
  match dict_get (fname f) input with
  | Some x => validate (ftyp f) x
  | None =>
      match fdefault f with
      | Some v => Ok v
      | None => invalid "missing"
      end
  end.

(** The first declared field with a given name. *)
Definition find_field (name : string) (fs : list field) : option field :=
  find (fun f => String.eqb (fname f) name) fs.

(** The dictionary [model_validate] is given by [from_dict]: the transcoded
    payload, or nothing when the payload is not a dictionary. *)
Definition validated_input (cls : model) (data : value) : items :=
  match data with
  | VDict kvs => dict_of_items (map (item_of (ignore_keys cls)) kvs)
  | _ => []
  end.

(** The timer classes, lines 140-160 and 620-626. *)
Definition timer_classes : list model :=
  [Cls.RoborockBaseTimer; Cls.DnDTimer; Cls.ValleyElectricityTimer].

(** ** Example tables and constants, for running the codec on sample payloads

    The enumeration tables and the constants belong to modules that are not
    part of the sources; the statements below hold for any of them, and
    these stand in for them where a statement is run on a sample payload. *)

Definition sample_table (name : string) : enum_table :=
  {| enum_name := name;
     enum_members := [("first", CInt 101); ("second", CInt 102)] |}.

Definition sample_tables : Cls.code_mappings := {|
  Cls.RoborockCategory := sample_table "RoborockCategory";
  Cls.RoborockCleanType := sample_table "RoborockCleanType";
  Cls.RoborockDockDustCollectionModeCode := sample_table "RoborockDockDustCollectionModeCode";
  Cls.RoborockDockErrorCode := sample_table "RoborockDockErrorCode";
  Cls.RoborockDockTypeCode := sample_table "RoborockDockTypeCode";
  Cls.RoborockDockWashTowelModeCode := sample_table "RoborockDockWashTowelModeCode";
  Cls.RoborockErrorCode := sample_table "RoborockErrorCode";
  Cls.RoborockFanPowerCode := sample_table "RoborockFanPowerCode";
  Cls.RoborockFanSpeedP10 := sample_table "RoborockFanSpeedP10";
  Cls.RoborockFanSpeedQ7Max := sample_table "RoborockFanSpeedQ7Max";
  Cls.RoborockFanSpeedS6Pure := sample_table "RoborockFanSpeedS6Pure";
  Cls.RoborockFanSpeedS7 := sample_table "RoborockFanSpeedS7";
  Cls.RoborockFanSpeedS7MaxV := sample_table "RoborockFanSpeedS7MaxV";
  Cls.RoborockFanSpeedS8MaxVUltra := sample_table "RoborockFanSpeedS8MaxVUltra";
  Cls.RoborockFinishReason := sample_table "RoborockFinishReason";
  Cls.RoborockInCleaning := sample_table "RoborockInCleaning";
  Cls.RoborockMopIntensityCode := sample_table "RoborockMopIntensityCode";
  Cls.RoborockMopIntensityP10 := sample_table "RoborockMopIntensityP10";
  Cls.RoborockMopIntensityS5Max := sample_table "RoborockMopIntensityS5Max";
  Cls.RoborockMopIntensityS6MaxV := sample_table "RoborockMopIntensityS6MaxV";
  Cls.RoborockMopIntensityS7 := sample_table "RoborockMopIntensityS7";
  Cls.RoborockMopIntensityS8MaxVUltra := sample_table "RoborockMopIntensityS8MaxVUltra";
  Cls.RoborockMopIntensityV2 := sample_table "RoborockMopIntensityV2";
  Cls.RoborockMopModeCode := sample_table "RoborockMopModeCode";
  Cls.RoborockMopModeS7 := sample_table "RoborockMopModeS7";
  Cls.RoborockMopModeS8MaxVUltra := sample_table "RoborockMopModeS8MaxVUltra";
  Cls.RoborockMopModeS8ProUltra := sample_table "RoborockMopModeS8ProUltra";
  Cls.RoborockStartType := sample_table "RoborockStartType";
  Cls.RoborockStateCode := sample_table "RoborockStateCode"
|}.

Definition sample_consts : Cls.consts := {|
  Cls.CLEANING_BRUSH_REPLACE_TIME := 180000;
  Cls.DUST_COLLECTION_REPLACE_TIME := 360000;
  Cls.FILTER_REPLACE_TIME := 540000;
  Cls.MAIN_BRUSH_REPLACE_TIME := 720000;
  Cls.MOP_ROLLER_REPLACE_TIME := 900000;
  Cls.SENSOR_DIRTY_REPLACE_TIME := 1080000;
  Cls.SIDE_BRUSH_REPLACE_TIME := 1260000;
  Cls.STRAINER_REPLACE_TIME := 1440000;
  Cls.ROBOROCK_G10S_PRO := "roborock.g10s.pro";
  Cls.ROBOROCK_P10 := "roborock.p10";
  Cls.ROBOROCK_Q7_MAX := "roborock.q7.max";
  Cls.ROBOROCK_QREVO_MAXV := "roborock.qrevo.maxv";
  Cls.ROBOROCK_QREVO_PRO := "roborock.qrevo.pro";
  Cls.ROBOROCK_QREVO_S := "roborock.qrevo.s";
  Cls.ROBOROCK_S4_MAX := "roborock.s4.max";
  Cls.ROBOROCK_S5_MAX := "roborock.s5.max";
  Cls.ROBOROCK_S6 := "roborock.s6";
  Cls.ROBOROCK_S6_MAXV := "roborock.s6.maxv";
  Cls.ROBOROCK_S6_PURE := "roborock.s6.pure";
  Cls.ROBOROCK_S7 := "roborock.s7";
  Cls.ROBOROCK_S7_MAXV := "roborock.s7.maxv";
  Cls.ROBOROCK_S8 := "roborock.s8";
  Cls.ROBOROCK_S8_MAXV_ULTRA := "roborock.s8.maxv.ultra";
  Cls.ROBOROCK_S8_PRO_ULTRA := "roborock.s8.pro.ultra"
|}.

(** * Properties *)

(** ** Sample runs of the transcoder and of the arithmetic *)

Example camelize_local_key : camelize "local_key" = "localKey".
Proof. reflexivity. Qed.

Example camelize_single_word : camelize "mapFlag" = "mapFlag".
Proof. reflexivity. Qed.

Example decamelize_local_key : decamelize "localKey" = "local_key".
Proof. reflexivity. Qed.

Example decamelize_acronym : decamelize "mqttOTAData" = "mqtt_otadata".
Proof. reflexivity. Qed.

Example truediv_third :
  Py.truediv 1 3 = Ok (S754_finite false 6004799503160661 (-54)).
Proof. vm_compute. reflexivity. Qed.

Example truediv_rounds_up :
  Py.truediv 18446744073709551615 4294967296
  = Ok (S754_finite false 4503599627370496 (-20)).
Proof. vm_compute. reflexivity. Qed.

Example truediv_overflow : Py.truediv (10 ^ 400) 3 = Raise OverflowError.
Proof. vm_compute. reflexivity. Qed.

Example truediv_underflow : Py.truediv 7 (10 ^ 400) = Ok (S754_zero false).
Proof. vm_compute. reflexivity. Qed.

Example round1_square_meters :
  bind (Py.truediv 1250000 1000000) Py.round1 = Py.truediv 12 10.
Proof. vm_compute. reflexivity. Qed.

(** ** The capability decoder *)

Module FloatFacts.

Lemma digits2_size (p : positive) : digits2_pos p = Pos.size p.
Proof. induction p; simpl; congruence. Qed.

Lemma Zdigits2_log2 (x : Z) : 0 < x -> Zdigits2 x = Z.log2 x + 1.
Proof.
  destruct x as [|p|p]; try lia. intros _. simpl.
  rewrite digits2_size.
  destruct p; simpl; try reflexivity; rewrite Pos.add_1_r; reflexivity.
Qed.

Lemma div_eucl_pair (a b : Z) : Z.div_eucl a b = (a / b, a mod b).
Proof. unfold Z.div, Z.modulo. destruct (Z.div_eucl a b); reflexivity. Qed.

Lemma double_pos (p : positive) : 2 * Z.pos p = Z.pos p~0.
Proof. reflexivity. Qed.

End FloatFacts.

(** Below [2 ^ 53] the float division is exact and the truncation gives the
    integer quotient. *)
Lemma new_feature_set_divided_small (x : Z) :
  0 <= x < 2 ^ 53 -> new_feature_set_divided_of x = Ok (x / 2 ^ 32).
Proof.
  intros Hx. unfold new_feature_set_divided_of, Py.truediv.
  replace (2 ^ 32 =? 0) with false by reflexivity.
  destruct (Z.eqb_spec x 0) as [-> | Hnz]; [reflexivity|].
  assert (Hpos : 0 < x) by lia.
  replace (x <? 0) with false by (symmetry; apply Z.ltb_ge; lia).
  replace (2 ^ 32 <? 0) with false by reflexivity.
  rewrite (Z.abs_eq x) by lia. rewrite (Z.abs_eq (2 ^ 32)) by lia.
  set (l := Z.log2 x).
  assert (Hl : 0 <= l <= 52).
  { subst l. split; [apply Z.log2_nonneg|].
    assert (Z.log2 x < 53) by (apply Z.log2_lt_pow2; lia). lia. }
  unfold SFdiv_core_binary.
  rewrite (FloatFacts.Zdigits2_log2 x Hpos). fold l.
  replace (Zdigits2 (2 ^ 32)) with 33 by reflexivity.
  unfold fexp, emin, Py.prec, Py.emax.
  replace (Z.min (Z.max (l + 1 + 0 - (33 + 0) - 53) (3 - 1024 - 53)) (0 - 0))
    with (l - 85) by lia.
  replace (0 - 0 - (l - 85)) with (85 - l) by lia.
  destruct (85 - l) as [|s|s] eqn:Hs; try lia.
  rewrite <- Hs. rewrite FloatFacts.div_eucl_pair.
  rewrite Z.shiftl_mul_pow2 by lia.
  replace (2 ^ (85 - l)) with (2 ^ (53 - l) * 2 ^ 32)
    by (rewrite <- Z.pow_add_r by lia; f_equal; lia).
  rewrite Z.mul_assoc, Z.mod_mul, Z.div_mul by lia.
  unfold new_location. replace (Z.even (2 ^ 32)) with true by reflexivity.
  unfold new_location_even. simpl (0 =? 0).
  replace (2 ^ (53 - l)) with (2 * 2 ^ (52 - l))
    by (rewrite <- Z.pow_succ_r by lia; f_equal; lia).
  assert (Hm : 0 < x * 2 ^ (52 - l)) by (apply Z.mul_pos_pos; [lia | apply Z.pow_pos_nonneg; lia]).
  destruct (x * 2 ^ (52 - l)) as [|m|m] eqn:Hmeq; try lia.
  replace (x * (2 * 2 ^ (52 - l))) with (2 * (x * 2 ^ (52 - l))) by lia.
  rewrite Hmeq, FloatFacts.double_pos.
  assert (Hdm : Z.pos (digits2_pos m) = 53).
  { change (Z.pos (digits2_pos m)) with (Zdigits2 (Z.pos m)).
    rewrite FloatFacts.Zdigits2_log2 by lia. rewrite <- Hmeq.
    rewrite <- Z.shiftl_mul_pow2 by lia. rewrite Z.log2_shiftl by lia.
    fold l. lia. }
  unfold binary_round_aux, shr_fexp, fexp, emin.
  assert (Hdm2 : Zdigits2 (Z.pos m~0) = 54).
  { simpl. rewrite Pos2Z.inj_succ. lia. }
  rewrite Hdm2.
  replace (Z.max (54 + (l - 85) - 53) (3 - 1024 - 53) - (l - 85)) with 1 by lia.
  cbv beta iota zeta delta
    [shr shr_record_of_loc iter_pos shr_1 shr_m loc_of_shr_record
     round_nearest_even Zdigits2 orb].
  rewrite Hdm.
  replace (Z.max (53 + (l - 85 + 1) - 53) (3 - 1024 - 53) - (l - 85 + 1)) with 0 by lia.
  cbv beta iota zeta.
  replace (l - 85 + 1 <=? 1024 - 53) with true by (symmetry; apply Z.leb_le; lia).
  simpl bind. unfold Py.int_of_float.
  replace (0 <=? l - 85 + 1) with false by (symmetry; apply Z.leb_gt; lia).
  simpl cond_Zopp. f_equal.
  rewrite Z.shiftr_div_pow2 by lia. rewrite <- Hmeq.
  replace (- (l - 85 + 1)) with (52 - l + 32) by lia.
  rewrite Z.pow_add_r by lia.
  rewrite (Z.mul_comm (2 ^ (52 - l)) (2 ^ 32)).
  rewrite Z.div_mul_cancel_r; try lia.
Qed.

Module BitFacts.

Lemma land_pow2 (h k : Z) :
  0 <= k -> Z.land h (2 ^ k) = if Z.testbit h k then 2 ^ k else 0.
Proof.
  intros Hk. apply Z.bits_inj'. intros n Hn.
  rewrite Z.land_spec, Z.pow2_bits_eqb by assumption.
  destruct (Z.eqb_spec k n) as [<- | Hne].
  - destruct (Z.testbit h k); simpl.
    + rewrite Z.pow2_bits_eqb, Z.eqb_refl by assumption. reflexivity.
    + rewrite Z.bits_0. reflexivity.
  - rewrite andb_false_r. destruct (Z.testbit h k).
    + rewrite Z.pow2_bits_eqb by assumption.
      symmetry. apply Z.eqb_neq. assumption.
    + rewrite Z.bits_0. reflexivity.
Qed.

(** [bool(h & 2 ** k)] is bit [k] of [h]. *)
Lemma truthy_land_pow2 (h k : Z) :
  0 <= k -> Py.truthy (Z.land h (2 ^ k)) = Z.testbit h k.
Proof.
  intros Hk. rewrite land_pow2 by assumption. unfold Py.truthy.
  destruct (Z.testbit h k); [|reflexivity].
  apply negb_true_iff, Z.eqb_neq, Z.pow_nonzero; lia.
Qed.

(** [bool((h >> k) & 1)] is bit [k] of [h]. *)
Lemma truthy_shiftr_land_1 (h k : Z) :
  0 <= k -> Py.truthy (Z.land (Z.shiftr h k) 1) = Z.testbit h k.
Proof.
  intros Hk. change 1 with (Z.ones 1). rewrite Z.land_ones by lia.
  change (2 ^ 1) with 2. rewrite <- Z.bit0_mod.
  rewrite Z.shiftr_spec by lia. simpl (0 + k).
  unfold Py.truthy. destruct (Z.testbit h k); reflexivity.
Qed.

End BitFacts.

Module StrFacts.

Lemma all_digits_substring (s : string) :
  forall n m, Str.all_digits s = true ->
              Str.all_digits (String.substring n m s) = true.
Proof.
  induction s as [|c s IH]; intros n m H.
  - destruct n, m; reflexivity.
  - simpl in H. apply andb_true_iff in H. destruct H as [Hc Hs].
    destruct n, m; simpl; auto.
    rewrite Hc. simpl. apply IH. assumption.
Qed.

Lemma substring_nonempty (s : string) :
  forall n m, (n < String.length s)%nat -> (0 < m)%nat ->
              String.substring n m s <> EmptyString.
Proof.
  induction s as [|c s IH]; intros n m Hn Hm; simpl in Hn; [lia|].
  destruct n, m; simpl; try lia; try discriminate.
  - apply IH; lia.
Qed.

(** The last eight characters of a digit string are a digit string. *)
Lemma decimal_digits_last_chars (s : string) :
  Str.decimal_digits s = true ->
  Str.decimal_digits (Str.last_chars 8 s) = true.
Proof.
  intros H. unfold Str.last_chars.
  assert (Hall : Str.all_digits s = true) by (destruct s; [discriminate | exact H]).
  assert (Hne : String.substring (String.length s - 8) 8 s <> EmptyString).
  { apply substring_nonempty; [|lia]. destruct s; [discriminate|]. simpl. lia. }
  pose proof (all_digits_substring s (String.length s - 8) 8 Hall) as Hsub.
  destruct (String.substring (String.length s - 8) 8 s); [congruence | exact Hsub].
Qed.

Lemma digit_value_nonneg (c : ascii) : Str.is_digit c = true -> 0 <= Str.digit_value c.
Proof.
  unfold Str.is_digit, Str.digit_value. intros H.
  apply andb_true_iff in H. destruct H as [H _].
  apply Nat.leb_le in H. lia.
Qed.

Lemma digits_value_nonneg (base : Z) (s : string) :
  0 <= base -> forall acc, 0 <= acc -> Str.all_digits s = true ->
  0 <= Str.digits_value base acc s.
Proof.
  intros Hb. induction s as [|c s IH]; intros acc Hacc H; simpl; [assumption|].
  simpl in H. apply andb_true_iff in H. destruct H as [Hc Hs].
  apply IH; [|assumption].
  pose proof (digit_value_nonneg c Hc). nia.
Qed.

Lemma int_of_str_digits (s : string) (x : Z) :
  Py.int_of_str s = Ok x -> Str.decimal_digits s = true /\ 0 <= x.
Proof.
  unfold Py.int_of_str. destruct (Str.decimal_digits s) eqn:Hd; [|discriminate].
  destruct (Nat.ltb _ _); [discriminate|]. intros [= <-]. split; [reflexivity|].
  apply digits_value_nonneg; try lia. destruct s; [discriminate | exact Hd].
Qed.

End StrFacts.

(** C4, as stated, fails: the quotient is taken in floating point.  For the
    extended word 18446744073709551615 (that is [2 ^ 64 - 1]) the float
    quotient rounds up to [2 ^ 32], which the truncation keeps, while the
    integer quotient is [2 ^ 32 - 1]. *)
Lemma extended_high_not_integer_quotient :
  Py.int_of_str "18446744073709551615" = Ok 18446744073709551615
  /\ extended_high "18446744073709551615" = Ok 4294967296
  /\ 18446744073709551615 / 2 ^ 32 = 4294967295.
Proof. vm_compute. repeat split. Qed.

(** C4 (amended): for every decimal-digit string whose integer value is below
    [2 ^ 53], [extended_high] is the integer quotient of that value by
    [2 ^ 32]. *)
Theorem extended_high_quotient_below_2_53 (new_feature_set : string) (word : Z) :
  Py.int_of_str new_feature_set = Ok word ->
  word < 2 ^ 53 ->
  extended_high new_feature_set = Ok (word / 2 ^ 32).
Proof.
  intros Hparse Hlt. unfold extended_high. rewrite Hparse. cbn [bind].
  apply new_feature_set_divided_small.
  apply StrFacts.int_of_str_digits in Hparse. lia.
Qed.

Lemma extended_high_quotient_below_2_53_witness :
  Py.int_of_str "8589934593" = Ok 8589934593
  /\ 8589934593 < 2 ^ 53
  /\ extended_high "8589934593" = Ok (8589934593 / 2 ^ 32).
Proof.
  split; [reflexivity|]. split; [reflexivity|].
  apply (extended_high_quotient_below_2_53 "8589934593" 8589934593);
    reflexivity.
Defined.

(** C2, as stated, fails for [wash_then_charge_cmd_supported]: with the
    extended word 4294967296 (that is [2 ^ 32]) [extended_high] is 1, whose
    bit 0 is set, and the flag is false. *)
Lemma wash_then_charge_is_not_bit_0 :
  exists df,
    build_device_features "0" "4294967296" = Ok df
    /\ extended_high "4294967296" = Ok 1
    /\ Z.testbit 1 0 = true
    /\ wash_then_charge_cmd_supported df = false.
Proof. eexists. vm_compute. repeat split. Qed.

(** What the decoder reads from [new_feature_set_divided] for the four flags
    of lines 350 and 363-365. *)
Lemma build_device_features_high_bits
  (feature_set new_feature_set : string) (legacy word high : Z) :
  Py.int_of_str new_feature_set = Ok word ->
  Py.int_of_str feature_set = Ok legacy ->
  new_feature_set_divided_of word = Ok high ->
  exists df,
    build_device_features feature_set new_feature_set = Ok df
    /\ extended_high new_feature_set = Ok high
    /\ wash_then_charge_cmd_supported df = Z.testbit high 5
    /\ support_smart_scene df = Z.testbit high 1
    /\ support_floor_edit df = Z.testbit high 3
    /\ support_furniture df = Z.testbit high 4.
Proof.
  intros Hword Hlegacy Hhigh.
  pose proof (StrFacts.int_of_str_digits _ _ Hword) as [Hdigits _].
  pose proof (StrFacts.decimal_digits_last_chars _ Hdigits) as Htail.
  unfold build_device_features, extended_high.
  rewrite Hword. cbn [bind]. rewrite Hlegacy. cbn [bind].
  rewrite Hhigh. cbn [bind].
  unfold Py.int_of_hex. rewrite Htail. cbn [bind].
  eexists. split; [reflexivity|]. split; [reflexivity|].
  cbv beta iota delta
    [wash_then_charge_cmd_supported support_smart_scene support_floor_edit
     support_furniture].
  repeat split.
  - apply BitFacts.truthy_shiftr_land_1. lia.
  - apply (BitFacts.truthy_land_pow2 high 1). lia.
  - apply (BitFacts.truthy_land_pow2 high 3). lia.
  - apply BitFacts.truthy_shiftr_land_1. lia.
Qed.

(** C2 (amended): for every pair of decimal-digit strings on which the
    quotient [extended_high] is computed, the decoder returns an object whose
    [wash_then_charge_cmd_supported] is bit 5 of [extended_high], whose
    [support_smart_scene] is bit 1, [support_floor_edit] bit 3 and
    [support_furniture] bit 4. *)
Theorem extended_high_flags
  (feature_set new_feature_set : string) (legacy word high : Z) :
  Py.int_of_str new_feature_set = Ok word ->
  Py.int_of_str feature_set = Ok legacy ->
  new_feature_set_divided_of word = Ok high ->
  exists df,
    build_device_features feature_set new_feature_set = Ok df
    /\ extended_high new_feature_set = Ok high
    /\ wash_then_charge_cmd_supported df = Z.testbit high 5
    /\ support_smart_scene df = Z.testbit high 1
    /\ support_floor_edit df = Z.testbit high 3
    /\ support_furniture df = Z.testbit high 4.
Proof. apply build_device_features_high_bits. Qed.

Lemma extended_high_flags_witness :
  exists df,
    build_device_features "0" "141733920768" = Ok df
    /\ extended_high "141733920768" = Ok 33
    /\ wash_then_charge_cmd_supported df = Z.testbit 33 5
    /\ support_smart_scene df = Z.testbit 33 1
    /\ support_floor_edit df = Z.testbit 33 3
    /\ support_furniture df = Z.testbit 33 4.
Proof.
  apply (extended_high_flags "0" "141733920768" 0 141733920768 33);
    reflexivity.
Defined.

(** The decoder returns an object for every pair of digit strings that
    [int] accepts when the extended word is below [2 ^ 53]. *)
Lemma build_device_features_returns
  (feature_set new_feature_set : string) (legacy word : Z) :
  Py.int_of_str new_feature_set = Ok word ->
  Py.int_of_str feature_set = Ok legacy ->
  word < 2 ^ 53 ->
  exists df, build_device_features feature_set new_feature_set = Ok df.
Proof.
  intros Hword Hlegacy Hlt.
  pose proof (StrFacts.int_of_str_digits _ _ Hword) as [_ Hnonneg].
  destruct (build_device_features_high_bits feature_set new_feature_set legacy word
              (word / 2 ^ 32) Hword Hlegacy) as [df [Hdf _]].
  - apply new_feature_set_divided_small. lia.
  - exists df. exact Hdf.
Qed.

(** ** The name transcoder *)

Module CharFacts.

Lemma to_lower_not_upper (c : ascii) : Str.is_upper (Str.to_lower c) = false.
Proof. destruct c as [[] [] [] [] [] [] [] []]; reflexivity. Qed.

Lemma to_lower_fixed (c : ascii) :
  Str.is_upper c = false -> Str.to_lower c = c.
Proof. unfold Str.to_lower. intros ->. reflexivity. Qed.




Lemma to_lower_not_underscore (c : ascii) :
  Ascii.eqb c "_"%char = false -> Ascii.eqb (Str.to_lower c) "_"%char = false.
Proof. destruct c as [[] [] [] [] [] [] [] []]; (reflexivity || discriminate). Qed.

Lemma to_upper_not_underscore (c : ascii) :
  Ascii.eqb c "_"%char = false -> Ascii.eqb (Str.to_upper c) "_"%char = false.
Proof. destruct c as [[] [] [] [] [] [] [] []]; (reflexivity || discriminate). Qed.


End CharFacts.

Module NameFacts.

Import Name.

Lemma all_chars_app (p : ascii -> bool) (a b : string) :
  all_chars p (a ++ b) = (all_chars p a && all_chars p b)%bool.
Proof.
  induction a as [|c a IH]; [reflexivity|].
  cbn [String.append all_chars]. rewrite IH. apply andb_assoc.
Qed.


Lemma all_chars_cons (p : ascii -> bool) (c : ascii) (s : string) :
  all_chars p (String c s) = (p c && all_chars p s)%bool.
Proof. reflexivity. Qed.

Lemma no_upper_cons (c : ascii) (s : string) :
  no_upper (String c s) = (negb (Str.is_upper c) && no_upper s)%bool.
Proof. reflexivity. Qed.

Lemma no_upper_inv (c : ascii) (s : string) :
  no_upper (String c s) = true -> Str.is_upper c = false /\ no_upper s = true.
Proof.
  rewrite no_upper_cons. intros H. apply andb_true_iff in H.
  destruct H as [Hc Hs]. apply negb_true_iff in Hc. split; assumption.
Qed.

Lemma lower_no_upper (s : string) : no_upper (Str.lower s) = true.
Proof.
  induction s as [|c s IH]; [reflexivity|].
  cbn [Str.lower]. rewrite no_upper_cons, CharFacts.to_lower_not_upper.
  exact IH.
Qed.

Lemma lower_fixed (s : string) : no_upper s = true -> Str.lower s = s.
Proof.
  induction s as [|c s IH]; [reflexivity|]. intros H.
  apply no_upper_inv in H. destruct H as [Hc Hs].
  cbn [Str.lower]. rewrite (CharFacts.to_lower_fixed c Hc), (IH Hs). reflexivity.
Qed.

Lemma underscore_runs_fixed (s : string) :
  no_upper s = true -> forall in_run, underscore_runs in_run s = s.
Proof.
  induction s as [|c s IH]; [reflexivity|]. intros H in_run.
  apply no_upper_inv in H. destruct H as [Hc Hs].
  cbn [underscore_runs]. rewrite Hc, (IH Hs). reflexivity.
Qed.

Lemma decamelize_fixed (s : string) : no_upper s = true -> decamelize s = s.
Proof.
  intros H. unfold decamelize.
  rewrite (underscore_runs_fixed s H). apply lower_fixed. exact H.
Qed.




End NameFacts.


Module SplitFacts.

Import Name NameFacts.

Lemma app_nil_r (s : string) : (s ++ "")%string = s.
Proof. induction s as [|c s IH]; [reflexivity|]. cbn [String.append]. rewrite IH. reflexivity. Qed.

Lemma app_assoc (a b c : string) : ((a ++ b) ++ c)%string = (a ++ (b ++ c))%string.
Proof. induction a as [|x a IH]; [reflexivity|]. cbn [String.append]. rewrite IH. reflexivity. Qed.

Lemma split_from_nonempty (s : string) : forall cur, Str.split_from cur s <> [].
Proof.
  induction s as [|c s IH]; intros cur; cbn [Str.split_from]; [discriminate|].
  destruct (Ascii.eqb c "_"%char); [discriminate | apply IH].
Qed.

(** A string that splits into one segment has no underscore. *)
Lemma split_from_single (s : string) :
  forall cur x, Str.split_from cur s = [x] ->
                x = (cur ++ s)%string /\ no_underscore s = true.
Proof.
  induction s as [|c s IH]; intros cur x H; cbn [Str.split_from] in H.
  - injection H as <-. rewrite app_nil_r. split; reflexivity.
  - destruct (Ascii.eqb c "_"%char) eqn:Hc.
    + injection H as _ H. exfalso. exact (split_from_nonempty s _ H).
    + apply IH in H. destruct H as [-> Hs]. rewrite app_assoc. split; [reflexivity|].
      unfold no_underscore. rewrite all_chars_cons, Hc. exact Hs.
Qed.

Lemma split_from_segments (s : string) :
  forall cur, no_underscore cur = true ->
              Forall (fun w => no_underscore w = true) (Str.split_from cur s).
Proof.
  induction s as [|c s IH]; intros cur Hcur; cbn [Str.split_from].
  - constructor; [exact Hcur | constructor].
  - destruct (Ascii.eqb c "_"%char) eqn:Hc.
    + constructor; [exact Hcur | apply IH; reflexivity].
    + apply IH. unfold no_underscore. rewrite all_chars_app.
      fold (no_underscore cur). rewrite Hcur. cbn. rewrite Hc. reflexivity.
Qed.




Lemma no_underscore_lower (w : string) :
  no_underscore w = true -> no_underscore (Str.lower w) = true.
Proof.
  unfold no_underscore. induction w as [|c w IH]; [reflexivity|].
  cbn [Str.lower]. rewrite !all_chars_cons. intros H.
  apply andb_true_iff in H. destruct H as [Hc Hw]. apply negb_true_iff in Hc.
  rewrite (CharFacts.to_lower_not_underscore c Hc), (IH Hw). reflexivity.
Qed.

Lemma no_underscore_title (w : string) :
  no_underscore w = true ->
  forall cased, no_underscore (Str.title_from cased w) = true.
Proof.
  unfold no_underscore. induction w as [|c w IH]; [reflexivity|].
  rewrite all_chars_cons. intros H cased.
  apply andb_true_iff in H. destruct H as [Hc Hw]. apply negb_true_iff in Hc.
  cbn [Str.title_from].
  destruct (Str.is_lower c || Str.is_upper c)%bool; rewrite all_chars_cons.
  - rewrite (IH Hw). destruct cased.
    + rewrite (CharFacts.to_lower_not_underscore c Hc). reflexivity.
    + rewrite (CharFacts.to_upper_not_underscore c Hc). reflexivity.
  - rewrite Hc, (IH Hw). reflexivity.
Qed.

Lemma no_underscore_join (l : list string) :
  Forall (fun w => no_underscore w = true) l -> no_underscore (Str.join l) = true.
Proof.
  induction 1 as [|w l Hw _ IH]; [reflexivity|].
  unfold Str.join. cbn [fold_right]. fold (Str.join l).
  unfold no_underscore. rewrite all_chars_app.
  fold (no_underscore w) (no_underscore (Str.join l)). rewrite Hw, IH. reflexivity.
Qed.

End SplitFacts.

(** [camelize] never returns a name with an underscore. *)
Theorem camelize_no_underscore (s : string) :
  Name.no_underscore (camelize s) = true.
Proof.
  unfold camelize.
  pose proof (SplitFacts.split_from_segments s "" eq_refl) as Hseg.
  fold (Str.split_underscore s) in Hseg.
  destruct (Str.split_underscore s) as [|first others] eqn:Hsplit.
  - exfalso. exact (SplitFacts.split_from_nonempty s _ Hsplit).
  - destruct others as [|o others].
    + apply SplitFacts.split_from_single in Hsplit. apply Hsplit.
    + apply SplitFacts.no_underscore_join.
      inversion Hseg as [|? ? Hfirst Hothers]; subst.
      constructor; [apply SplitFacts.no_underscore_lower; exact Hfirst|].
      apply Forall_map. eapply Forall_impl; [|exact Hothers].
      intros w Hw. apply SplitFacts.no_underscore_title. exact Hw.
Qed.

Module RoundTripFacts.

Import Name NameFacts SplitFacts.








End RoundTripFacts.



(** Why the one-letter words are excluded: two capitals in a row are one
    boundary for [decamelize]. *)
Example decamelize_camelize_one_letter_word :
  camelize "a_b_c" = "aBC" /\ decamelize "aBC" = "a_bc".
Proof. split; reflexivity. Qed.

(** ** Dictionaries *)

Module DictFacts.

Local Open Scope list_scope.

Section Generic.

Context {A : Type}.
Implicit Types (d l acc : list (string * A)) (k : string) (v : A).

Lemma dict_get_set k k' v d :
  dict_get k (dict_set k' v d) = if String.eqb k k' then Some v else dict_get k d.
Proof.
  induction d as [|[k0 v0] d IH]; cbn [dict_set dict_get].
  - destruct (String.eqb k k'); reflexivity.
  - destruct (String.eqb_spec k' k0) as [-> | Hne]; cbn [dict_get].
    + destruct (String.eqb k k0); reflexivity.
    + rewrite IH. destruct (String.eqb_spec k k0) as [-> | Hne2]; [|reflexivity].
      destruct (String.eqb_spec k0 k'); [congruence | reflexivity].
Qed.

Lemma dict_get_None k d : dict_get k d = None <-> ~ In k (keys d).
Proof.
  induction d as [|[k0 v0] d IH]; cbn [dict_get keys map fst In]; [tauto|].
  destruct (String.eqb_spec k k0) as [-> | Hne].
  - split; [discriminate | tauto].
  - rewrite IH. unfold keys. split; [intros H [E | H']; [congruence | tauto] | tauto].
Qed.

Lemma dict_get_In k v d : dict_get k d = Some v -> In (k, v) d.
Proof.
  induction d as [|[k0 v0] d IH]; cbn [dict_get]; [discriminate|].
  destruct (String.eqb_spec k k0) as [-> | Hne].
  - intros [= ->]. left. reflexivity.
  - intros H. right. apply IH, H.
Qed.

Lemma dict_set_absent k v d : ~ In k (keys d) -> dict_set k v d = d ++ [(k, v)].
Proof.
  induction d as [|[k0 v0] d IH]; cbn [dict_set keys map fst In app]; [reflexivity|].
  intros H. destruct (String.eqb_spec k k0) as [-> | Hne]; [tauto|].
  unfold keys in IH. rewrite IH by tauto. reflexivity.
Qed.

Lemma keys_dict_set k v d :
  keys (dict_set k v d) = if existsb (String.eqb k) (keys d) then keys d else keys d ++ [k].
Proof.
  induction d as [|[k0 v0] d IH]; cbn [dict_set keys map fst existsb]; [reflexivity|].
  destruct (String.eqb_spec k k0) as [-> | Hne]; cbn [map fst orb]; [reflexivity|].
  unfold keys in IH. rewrite IH. destruct (existsb _ _); reflexivity.
Qed.

Lemma existsb_eqb_In k (l : list string) : existsb (String.eqb k) l = true <-> In k l.
Proof.
  rewrite existsb_exists. split.
  - intros [x [Hx Heq]]. apply String.eqb_eq in Heq. subst. exact Hx.
  - intros H. exists k. split; [exact H | apply String.eqb_refl].
Qed.

Lemma In_keys_dict_set k k' v d :
  In k (keys (dict_set k' v d)) <-> k = k' \/ In k (keys d).
Proof.
  rewrite keys_dict_set. destruct (existsb _ _) eqn:He.
  - apply existsb_eqb_In in He. split; [tauto | intros [-> | H]; assumption].
  - rewrite in_app_iff. cbn [In]. split; [intros [H | [H | []]]; auto | intros [H | H]; auto].
Qed.

Lemma NoDup_dict_set k v d : NoDup (keys d) -> NoDup (keys (dict_set k v d)).
Proof.
  intros H. rewrite keys_dict_set. destruct (existsb _ _) eqn:He; [exact H|].
  assert (Hn : ~ In k (keys d)).
  { intros Hin. apply existsb_eqb_In in Hin. congruence. }
  apply NoDup_app; [exact H | repeat constructor; intros [] | ].
  intros x Hx [<- | []]. exact (Hn Hx).
Qed.

Lemma In_dict_set k v k' v' d :
  In (k, v) (dict_set k' v' d) -> (k = k' /\ v = v') \/ In (k, v) d.
Proof.
  induction d as [|[k0 v0] d IH]; cbn [dict_set In].
  - intros [[= <- <-] | []]. left. split; reflexivity.
  - destruct (String.eqb k' k0); cbn [In].
    + intros [[= <- <-] | H]; [left; split; reflexivity | right; right; exact H].
    + intros [H | H]; [right; left; exact H|].
      apply IH in H. destruct H as [H | H]; [left; exact H | right; right; exact H].
Qed.

Lemma dict_of_items_insert_all (l : list (string * A)) :
  dict_of_items l = insert_all l [].
Proof. reflexivity. Qed.

Lemma insert_all_nil acc : insert_all [] acc = acc.
Proof. reflexivity. Qed.

Lemma insert_all_cons k v l acc :
  insert_all ((k, v) :: l) acc = insert_all l (dict_set k v acc).
Proof. reflexivity. Qed.

Lemma insert_all_app l1 l2 acc :
  insert_all (l1 ++ l2) acc = insert_all l2 (insert_all l1 acc).
Proof. unfold insert_all. apply fold_left_app. Qed.

Lemma keys_cons k v d : keys ((k, v) :: d) = k :: keys d.
Proof. reflexivity. Qed.

Lemma NoDup_insert_all l : forall acc, NoDup (keys acc) -> NoDup (keys (insert_all l acc)).
Proof.
  induction l as [|[k v] l IH]; intros acc H; [exact H|].
  rewrite insert_all_cons. apply IH, NoDup_dict_set, H.
Qed.

Lemma In_keys_insert_all l :
  forall acc k, In k (keys (insert_all l acc)) <-> In k (keys acc) \/ In k (keys l).
Proof.
  induction l as [|[k0 v0] l IH]; intros acc k.
  - rewrite insert_all_nil. cbn. tauto.
  - rewrite insert_all_cons, IH, In_keys_dict_set, keys_cons. cbn [In].
    split; [intros [[-> | H] | H]; auto | intros [H | [<- | H]]; auto].
Qed.

Lemma In_insert_all l :
  forall acc k v, In (k, v) (insert_all l acc) -> In (k, v) acc \/ In (k, v) l.
Proof.
  induction l as [|[k0 v0] l IH]; intros acc k v.
  - rewrite insert_all_nil. auto.
  - rewrite insert_all_cons. intros H. apply IH in H. cbn [In].
    destruct H as [H | H]; [|auto].
    apply In_dict_set in H. destruct H as [[-> ->] | H]; auto.
Qed.

Lemma dict_get_insert_all_absent l k :
  ~ In k (keys l) -> forall acc, dict_get k (insert_all l acc) = dict_get k acc.
Proof.
  induction l as [|[k2 v2] l IH]; intros Hl acc; [reflexivity|].
  rewrite keys_cons in Hl. cbn [In] in Hl.
  rewrite insert_all_cons, IH by tauto. rewrite dict_get_set.
  destruct (String.eqb_spec k k2); [exfalso; apply Hl; left; congruence | reflexivity].
Qed.

(** The value kept under a key is the one inserted last. *)
Lemma dict_get_insert_all_last l1 k v l2 :
  ~ In k (keys l2) ->
  forall acc, dict_get k (insert_all (l1 ++ (k, v) :: l2) acc) = Some v.
Proof.
  intros Hl2 acc. rewrite insert_all_app, insert_all_cons.
  rewrite (dict_get_insert_all_absent l2 k Hl2).
  rewrite dict_get_set, String.eqb_refl. reflexivity.
Qed.

(** Items with pairwise distinct keys are kept as they are. *)
Lemma insert_all_distinct l :
  forall acc, NoDup (keys acc ++ keys l) -> insert_all l acc = acc ++ l.
Proof.
  induction l as [|[k v] l IH]; intros acc H.
  - rewrite insert_all_nil, app_nil_r. reflexivity.
  - rewrite keys_cons in H.
    assert (Hk : ~ In k (keys acc)).
    { apply NoDup_remove_2 in H. intros Hin. apply H, in_or_app. left. exact Hin. }
    rewrite insert_all_cons, (dict_set_absent k v acc Hk), IH.
    + rewrite <- app_assoc. reflexivity.
    + unfold keys. rewrite map_app, <- app_assoc. exact H.
Qed.

Lemma dict_of_items_distinct (l : list (string * A)) :
  NoDup (keys l) -> dict_of_items l = l.
Proof. intros H. apply (insert_all_distinct l []). exact H. Qed.

End Generic.

End DictFacts.

(** ** Induction on values *)

Section ValueInduction.

Variable Pv : value -> Prop.
Hypothesis HNone : Pv VNone.
Hypothesis HBool : forall b, Pv (VBool b).
Hypothesis HInt : forall z, Pv (VInt z).
Hypothesis HFloat : forall f, Pv (VFloat f).
Hypothesis HStr : forall s, Pv (VStr s).
Hypothesis HTime : forall h m, Pv (VTime h m).
Hypothesis HDatetime : forall t, Pv (VDatetime t).
Hypothesis HEnum : forall e n c, Pv (VEnum e n c).
Hypothesis HList : forall l, Forall Pv l -> Pv (VList l).
Hypothesis HDict : forall d, Forall (fun kv => Pv (snd kv)) d -> Pv (VDict d).
Hypothesis HModel :
  forall cls fs, Forall (fun kv => Pv (snd kv)) fs -> Pv (VModel cls fs).

Fixpoint value_nested_ind (v : value) : Pv v :=
  let on_items :=
    fix on_items (d : items) : Forall (fun kv => Pv (snd kv)) d :=
      match d with
      | [] => Forall_nil _
      | kv :: d' => Forall_cons kv (value_nested_ind (snd kv)) (on_items d')
      end in
  match v with
  | VNone => HNone
  | VBool b => HBool b
  | VInt z => HInt z
  | VFloat f => HFloat f
  | VStr s => HStr s
  | VTime h m => HTime h m
  | VDatetime t => HDatetime t
  | VEnum e n c => HEnum e n c
  | VList l =>
      HList l ((fix on_list (l : list value) : Forall Pv l :=
                  match l with
                  | [] => Forall_nil _
                  | x :: l' => Forall_cons x (value_nested_ind x) (on_list l')
                  end) l)
  | VDict d => HDict d (on_items d)
  | VModel cls fs => HModel cls fs (on_items fs)
  end.

End ValueInduction.

(** ** [decamelize_obj] *)

Module WalkFacts.

Local Open Scope list_scope.

Lemma decamelize_idem (s : string) : decamelize (decamelize s) = decamelize s.
Proof.
  apply NameFacts.decamelize_fixed. unfold decamelize. apply NameFacts.lower_no_upper.
Qed.

Lemma decamelize_key_idem (ign : list string) (a : string) :
  decamelize_key ign (decamelize_key ign a) = decamelize_key ign a.
Proof.
  unfold decamelize_key. destruct (existsb (String.eqb a) ign) eqn:Ha.
  - rewrite Ha. reflexivity.
  - destruct (existsb (String.eqb (decamelize a)) ign); [reflexivity|].
    apply decamelize_idem.
Qed.

Lemma decamelize_key_shape (ign : list string) (a : string) :
  In (decamelize_key ign a) ign \/ Name.no_upper (decamelize_key ign a) = true.
Proof.
  unfold decamelize_key. destruct (existsb (String.eqb a) ign) eqn:Ha.
  - left. apply DictFacts.existsb_eqb_In. exact Ha.
  - right. unfold decamelize. apply NameFacts.lower_no_upper.
Qed.

Lemma decamelize_obj_dict (ign : list string) (kvs : items) :
  decamelize_obj ign (VDict kvs) = VDict (dict_of_items (map (item_of ign) kvs)).
Proof. reflexivity. Qed.

Lemma decamelize_obj_list (ign : list string) (l : list value) :
  decamelize_obj ign (VList l) = VList (map (decamelize_item ign) l).
Proof. reflexivity. Qed.

Lemma keys_item_of (ign : list string) (kvs : items) :
  keys (map (item_of ign) kvs) = map (decamelize_key ign) (keys kvs).
Proof. unfold keys. rewrite !map_map. reflexivity. Qed.

Lemma plain_dict (d : items) :
  plain (VDict d) = true -> forall k x, In (k, x) d -> plain x = true.
Proof.
  induction d as [|[k0 x0] d IH]; intros H k x Hin; [destruct Hin|].
  change (plain (VDict ((k0, x0) :: d))) with (plain x0 && plain (VDict d))%bool in H.
  apply andb_true_iff in H. destruct H as [H0 Hd].
  destruct Hin as [[= <- <-] | Hin]; [exact H0 | exact (IH Hd k x Hin)].
Qed.

Lemma plain_list (l : list value) :
  plain (VList l) = true -> forall x, In x l -> plain x = true.
Proof. cbn [plain]. intros H x Hx. rewrite forallb_forall in H. exact (H x Hx). Qed.

Lemma is_container_decamelize_obj (ign : list string) (v : value) :
  plain v = true -> is_container (decamelize_obj ign v) = is_container v.
Proof. destruct v; try reflexivity. discriminate. Qed.

Lemma decamelize_item_idem (ign : list string) (x : value) :
  plain x = true ->
  (plain x = true ->
   decamelize_obj ign (decamelize_obj ign x) = decamelize_obj ign x) ->
  decamelize_item ign (decamelize_item ign x) = decamelize_item ign x.
Proof.
  intros Hp IH. unfold decamelize_item at 2 3.
  destruct (is_container x) eqn:Hc.
  - unfold decamelize_item. rewrite (is_container_decamelize_obj ign x Hp), Hc.
    exact (IH Hp).
  - unfold decamelize_item. rewrite Hc. reflexivity.
Qed.

Lemma decamelize_obj_idem (ign : list string) (v : value) :
  plain v = true ->
  decamelize_obj ign (decamelize_obj ign v) = decamelize_obj ign v.
Proof.
  induction v as [| | | | | | | |l IH|d IH|cls fs IH] using value_nested_ind;
    intros Hp; try reflexivity; try discriminate.
  - rewrite !decamelize_obj_list, map_map. f_equal.
    apply map_ext_in. intros x Hx.
    rewrite Forall_forall in IH.
    apply decamelize_item_idem; [exact (plain_list l Hp x Hx) | exact (IH x Hx)].
  - rewrite decamelize_obj_dict.
    set (R := dict_of_items (map (item_of ign) d)).
    rewrite decamelize_obj_dict. f_equal.
    assert (Hfix : map (item_of ign) R = R).
    { rewrite <- (map_id R) at 2. apply map_ext_in. intros [k x] Hin.
      subst R. rewrite DictFacts.dict_of_items_insert_all in Hin.
      apply DictFacts.In_insert_all in Hin. destruct Hin as [[] | Hin].
      apply in_map_iff in Hin. destruct Hin as [[a b] [Heq Hab]].
      unfold item_of in Heq. cbn [fst snd] in Heq. injection Heq as <- <-.
      unfold item_of. cbn [fst snd]. f_equal.
      - apply decamelize_key_idem.
      - rewrite Forall_forall in IH.
        apply decamelize_item_idem;
          [exact (plain_dict d Hp a b Hab) | exact (IH (a, b) Hab)]. }
    rewrite Hfix. apply DictFacts.dict_of_items_distinct.
    subst R. rewrite DictFacts.dict_of_items_insert_all.
    apply DictFacts.NoDup_insert_all. constructor.
Qed.

End WalkFacts.

(** [decamelize_obj] on a dictionary: the keys of the result are pairwise
    distinct, they are the transcoded keys of the input, and each is either
    an exempted key or free of capitals. *)
Theorem decamelize_obj_keys (ignore_keys : list string) (kvs : items) :
  exists d,
    decamelize_obj ignore_keys (VDict kvs) = VDict d
    /\ NoDup (keys d)
    /\ (forall k, In k (keys d) <->
                  exists a, In a (keys kvs) /\ k = decamelize_key ignore_keys a)
    /\ Forall (fun k => In k ignore_keys \/ Name.no_upper k = true) (keys d).
Proof.
  exists (dict_of_items (map (item_of ignore_keys) kvs)).
  assert (Hkeys : forall k,
             In k (keys (dict_of_items (map (item_of ignore_keys) kvs)))
             <-> exists a, In a (keys kvs) /\ k = decamelize_key ignore_keys a).
  { intros k. rewrite DictFacts.dict_of_items_insert_all, DictFacts.In_keys_insert_all.
    rewrite WalkFacts.keys_item_of, in_map_iff. cbn [keys map In].
    split.
    - intros [[] | [a [Ha Hin]]]. exists a. split; [exact Hin | symmetry; exact Ha].
    - intros [a [Hin Ha]]. right. exists a. split; [symmetry; exact Ha | exact Hin]. }
  split; [reflexivity|]. split; [|split; [exact Hkeys|]].
  - rewrite DictFacts.dict_of_items_insert_all.
    apply DictFacts.NoDup_insert_all. constructor.
  - apply Forall_forall. intros k Hk. apply Hkeys in Hk.
    destruct Hk as [a [_ ->]]. apply WalkFacts.decamelize_key_shape.
Qed.

(** When several keys of a payload transcode to the same name, the value
    kept under that name is that of the last of them. *)
Theorem decamelize_obj_last_key_wins
  (ignore_keys : list string) (before : items) (a : string) (b : value)
  (after : items) :
  (forall a', In a' (keys after) ->
              decamelize_key ignore_keys a' <> decamelize_key ignore_keys a) ->
  exists d,
    decamelize_obj ignore_keys (VDict (before ++ (a, b) :: after)) = VDict d
    /\ dict_get (decamelize_key ignore_keys a) d
       = Some (decamelize_item ignore_keys b).
Proof.
  intros Hafter. eexists. split; [apply WalkFacts.decamelize_obj_dict|].
  rewrite map_app. cbn [map].
  rewrite DictFacts.dict_of_items_insert_all.
  apply (DictFacts.dict_get_insert_all_last
           (map (item_of ignore_keys) before)
           (decamelize_key ignore_keys a) (decamelize_item ignore_keys b)
           (map (item_of ignore_keys) after)).
  rewrite WalkFacts.keys_item_of, in_map_iff.
  intros [a' [Heq Hin]]. exact (Hafter a' Hin Heq).
Qed.

Lemma decamelize_obj_last_key_wins_witness :
  exists d,
    decamelize_obj [] (VDict ([("fanPower", VInt 101)]
                              ++ ("fan_power", VInt 104) :: [("battery", VInt 50)]))
    = VDict d
    /\ dict_get (decamelize_key [] "fan_power") d
       = Some (decamelize_item [] (VInt 104)).
Proof.
  apply (decamelize_obj_last_key_wins [] [("fanPower", VInt 101)]
           "fan_power" (VInt 104) [("battery", VInt 50)]).
  intros a' [<- | []]. discriminate.
Defined.

(** On a payload without instances, [decamelize_obj] applied twice is
    [decamelize_obj] applied once. *)
Theorem decamelize_obj_idempotent (ignore_keys : list string) (d : value) :
  plain d = true ->
  decamelize_obj ignore_keys (decamelize_obj ignore_keys d)
  = decamelize_obj ignore_keys d.
Proof. apply WalkFacts.decamelize_obj_idem. Qed.

Lemma decamelize_obj_idempotent_witness :
  plain (VDict [("mapInfo", VList [VDict [("mapFlag", VInt 0); ("addTime", VInt 5)]])])
  = true
  /\ decamelize_obj ["mapFlag"]
       (decamelize_obj ["mapFlag"]
          (VDict [("mapInfo", VList [VDict [("mapFlag", VInt 0); ("addTime", VInt 5)]])]))
     = decamelize_obj ["mapFlag"]
         (VDict [("mapInfo", VList [VDict [("mapFlag", VInt 0); ("addTime", VInt 5)]])]).
Proof.
  split; [reflexivity|].
  apply (decamelize_obj_idempotent ["mapFlag"]). reflexivity.
Defined.

(** ** The capability decoder: the other flags *)

Module BuildFacts.

(** [bool(2 ** k & h)] is bit [k] of [h]. *)
Lemma truthy_land_pow2_l (h k : Z) :
  0 <= k -> Py.truthy (Z.land (2 ^ k) h) = Z.testbit h k.
Proof. intros Hk. rewrite Z.land_comm. apply BitFacts.truthy_land_pow2. exact Hk. Qed.

(** [bool(a and b)] on integers. *)
Lemma truthy_and_int (a b : Z) :
  Py.truthy (Py.and_int a b) = (negb (a =? 0) && Py.truthy b)%bool.
Proof.
  unfold Py.and_int, Py.truthy. destruct (a =? 0) eqn:Ha; [|reflexivity].
  rewrite Ha. reflexivity.
Qed.

(** [bool(h and 2 ** k & h)]: the guard on [h] changes nothing. *)
Lemma truthy_guarded (h k : Z) :
  0 <= k -> Py.truthy (Py.and_int h (Z.land (2 ^ k) h)) = Z.testbit h k.
Proof.
  intros Hk. rewrite truthy_and_int, truthy_land_pow2_l by exact Hk.
  destruct (Z.eqb_spec h 0) as [-> | _]; [|reflexivity].
  rewrite Z.bits_0. reflexivity.
Qed.

Ltac steps H :=
  unfold build_device_features in H;
  match type of H with
  | context [Py.int_of_str ?s] =>
      destruct (Py.int_of_str s) as [word_int|] eqn:Hword;
      cbn [bind] in H; [|discriminate]
  end;
  match type of H with
  | context [Py.int_of_str ?s] =>
      destruct (Py.int_of_str s) as [legacy_int|] eqn:Hlegacy;
      cbn [bind] in H; [|discriminate]
  end;
  match type of H with
  | context [new_feature_set_divided_of ?w] =>
      destruct (new_feature_set_divided_of w) as [high_int|] eqn:Hhigh;
      cbn [bind] in H; [|discriminate]
  end;
  match type of H with
  | context [Py.int_of_hex ?s] =>
      destruct (Py.int_of_hex s) as [tail_int|] eqn:Htail;
      cbn [bind] in H; [|discriminate]
  end;
  match type of H with
  | Ok _ = Ok ?d =>
      apply (f_equal (fun r => match r with Ok a => a | Raise _ => d end)) in H;
      cbv beta iota in H; subst d
  end.

Ltac bit :=
  match goal with
  | |- Py.truthy (Z.land _ ?h) = Z.testbit ?h ?k =>
      apply (truthy_land_pow2_l h k); lia
  | |- Py.truthy (Py.and_int ?h (Z.land _ ?h)) = Z.testbit ?h ?k =>
      apply (truthy_guarded h k); lia
  | |- Py.truthy (Z.land (Z.shiftr ?h ?k) 1) = Z.testbit ?h ?k =>
      apply (BitFacts.truthy_shiftr_land_1 h k); lia
  | |- Py.truthy (Py.and_int ?a (Z.land _ ?h)) = (_ && Z.testbit ?h ?k)%bool =>
      rewrite truthy_and_int; f_equal; apply (truthy_land_pow2_l h k); lia
  | |- (?a && Py.truthy (Z.land _ ?h))%bool = (?a && Z.testbit ?h ?k)%bool =>
      f_equal; apply (truthy_land_pow2_l h k); lia
  end.

End BuildFacts.

(** The flags read from the extended feature word itself: each is one bit of
    the parsed integer; [show_clean_finish_reason_supported] is its bit 0,
    the guard [new_feature_set_int and ...] of line 349 changes nothing, and
    [multi_map_segment_timer_supported] also needs a non-zero legacy word. *)
Theorem extended_word_flags (feature_set new_feature_set : string)
  (df : DeviceFeatures) :
  build_device_features feature_set new_feature_set = Ok df ->
  exists legacy word,
    Py.int_of_str feature_set = Ok legacy
    /\ Py.int_of_str new_feature_set = Ok word
    /\ map_carpet_add_supported df = Z.testbit word 30
    /\ show_clean_finish_reason_supported df = Z.testbit word 0
    /\ resegment_supported df = Z.testbit word 2
    /\ video_monitor_supported df = Z.testbit word 3
    /\ any_state_transit_goto_supported df = Z.testbit word 4
    /\ fw_filter_obstacle_supported df = Z.testbit word 5
    /\ video_setting_supported df = Z.testbit word 6
    /\ ignore_unknown_map_object_supported df = Z.testbit word 7
    /\ set_child_supported df = Z.testbit word 8
    /\ carpet_supported df = Z.testbit word 9
    /\ mop_path_supported df = Z.testbit word 11
    /\ multi_map_segment_timer_supported df = (negb (legacy =? 0) && Z.testbit word 12)%bool
    /\ custom_water_box_distance_supported df = Z.testbit word 31
    /\ room_name_supported df = Z.testbit word 14
    /\ current_map_restore_enabled df = Z.testbit word 13
    /\ photo_upload_supported df = Z.testbit word 16
    /\ shake_mop_set_supported df = Z.testbit word 18
    /\ map_beautify_internal_debug_supported df = Z.testbit word 21
    /\ new_data_for_clean_history df = Z.testbit word 22
    /\ new_data_for_clean_history_detail df = Z.testbit word 23
    /\ flow_led_setting_supported df = Z.testbit word 24
    /\ dust_collection_setting_supported df = Z.testbit word 25
    /\ rpc_retry_supported df = Z.testbit word 26
    /\ avoid_collision_supported df = Z.testbit word 27
    /\ support_set_switch_map_mode df = Z.testbit word 28
    /\ record_allowed df = Z.testbit word 10.
Proof.
  intros H. BuildFacts.steps H.
  exists legacy_int, word_int. split; [reflexivity|]. split; [reflexivity|].
  cbv beta iota delta
    [map_carpet_add_supported show_clean_finish_reason_supported
     resegment_supported video_monitor_supported
     any_state_transit_goto_supported fw_filter_obstacle_supported
     video_setting_supported ignore_unknown_map_object_supported
     set_child_supported carpet_supported mop_path_supported
     multi_map_segment_timer_supported custom_water_box_distance_supported
     room_name_supported current_map_restore_enabled photo_upload_supported
     shake_mop_set_supported map_beautify_internal_debug_supported
     new_data_for_clean_history new_data_for_clean_history_detail
     flow_led_setting_supported dust_collection_setting_supported
     rpc_retry_supported avoid_collision_supported
     support_set_switch_map_mode record_allowed].
  repeat split; BuildFacts.bit.
Qed.

Lemma extended_word_flags_witness :
  exists df,
    build_device_features "0" "13" = Ok df
    /\ exists legacy word,
        Py.int_of_str "0" = Ok legacy
        /\ Py.int_of_str "13" = Ok word
        /\ map_carpet_add_supported df = Z.testbit word 30
        /\ show_clean_finish_reason_supported df = Z.testbit word 0
        /\ resegment_supported df = Z.testbit word 2
        /\ video_monitor_supported df = Z.testbit word 3
        /\ any_state_transit_goto_supported df = Z.testbit word 4
        /\ fw_filter_obstacle_supported df = Z.testbit word 5
        /\ video_setting_supported df = Z.testbit word 6
        /\ ignore_unknown_map_object_supported df = Z.testbit word 7
        /\ set_child_supported df = Z.testbit word 8
        /\ carpet_supported df = Z.testbit word 9
        /\ mop_path_supported df = Z.testbit word 11
        /\ multi_map_segment_timer_supported df = (negb (legacy =? 0) && Z.testbit word 12)%bool
        /\ custom_water_box_distance_supported df = Z.testbit word 31
        /\ room_name_supported df = Z.testbit word 14
        /\ current_map_restore_enabled df = Z.testbit word 13
        /\ photo_upload_supported df = Z.testbit word 16
        /\ shake_mop_set_supported df = Z.testbit word 18
        /\ map_beautify_internal_debug_supported df = Z.testbit word 21
        /\ new_data_for_clean_history df = Z.testbit word 22
        /\ new_data_for_clean_history_detail df = Z.testbit word 23
        /\ flow_led_setting_supported df = Z.testbit word 24
        /\ dust_collection_setting_supported df = Z.testbit word 25
        /\ rpc_retry_supported df = Z.testbit word 26
        /\ avoid_collision_supported df = Z.testbit word 27
        /\ support_set_switch_map_mode df = Z.testbit word 28
        /\ record_allowed df = Z.testbit word 10.
Proof.
  eexists. split; [vm_compute; reflexivity|].
  apply (extended_word_flags "0" "13"). reflexivity.
Defined.

(** The flags of lines 366-381, read from [new_feature_set_divided]: each is
    one bit of that quotient. *)
Theorem extended_high_other_flags (feature_set new_feature_set : string)
  (df : DeviceFeatures) :
  build_device_features feature_set new_feature_set = Ok df ->
  exists high,
    extended_high new_feature_set = Ok high
    /\ support_room_tag df = Z.testbit high 6
    /\ support_quick_map_builder df = Z.testbit high 7
    /\ support_smart_global_clean_with_custom_mode df = Z.testbit high 8
    /\ careful_slow_map_supported df = Z.testbit high 9
    /\ egg_mode_supported df = Z.testbit high 10
    /\ unsave_map_reason_supported df = Z.testbit high 14
    /\ carpet_show_on_map df = Z.testbit high 12
    /\ supported_valley_electricity df = Z.testbit high 13
    /\ drying_supported df = Z.testbit high 15
    /\ download_test_voice_supported df = Z.testbit high 16
    /\ support_backup_map df = Z.testbit high 17
    /\ support_custom_mode_in_cleaning df = Z.testbit high 18
    /\ support_remote_control_in_call df = Z.testbit high 19.
Proof.
  intros H. BuildFacts.steps H.
  exists high_int. split; [unfold extended_high; rewrite Hword; exact Hhigh|].
  cbv beta iota delta
    [support_room_tag support_quick_map_builder
     support_smart_global_clean_with_custom_mode careful_slow_map_supported
     egg_mode_supported unsave_map_reason_supported carpet_show_on_map
     supported_valley_electricity drying_supported
     download_test_voice_supported support_backup_map
     support_custom_mode_in_cleaning support_remote_control_in_call].
  repeat split; BuildFacts.bit.
Qed.

Lemma extended_high_other_flags_witness :
  exists df,
    build_device_features "0" "2203318222848" = Ok df
    /\ exists high,
        extended_high "2203318222848" = Ok high
        /\ support_room_tag df = Z.testbit high 6
        /\ support_quick_map_builder df = Z.testbit high 7
        /\ support_smart_global_clean_with_custom_mode df = Z.testbit high 8
        /\ careful_slow_map_supported df = Z.testbit high 9
        /\ egg_mode_supported df = Z.testbit high 10
        /\ unsave_map_reason_supported df = Z.testbit high 14
        /\ carpet_show_on_map df = Z.testbit high 12
        /\ supported_valley_electricity df = Z.testbit high 13
        /\ drying_supported df = Z.testbit high 15
        /\ download_test_voice_supported df = Z.testbit high 16
        /\ support_backup_map df = Z.testbit high 17
        /\ support_custom_mode_in_cleaning df = Z.testbit high 18
        /\ support_remote_control_in_call df = Z.testbit high 19.
Proof.
  eexists. split; [vm_compute; reflexivity|].
  apply (extended_high_other_flags "0" "2203318222848"). reflexivity.
Defined.

(** The flags of lines 382-395, read from the last eight characters of the
    extended word taken as a hexadecimal numeral: six are one bit of that
    value, eight are that bit and-ed with [len(new_feature_set) % 8 == 0],
    so those eight are all false when the length is not a multiple of 8. *)
Theorem tail_hex_flags (feature_set new_feature_set : string)
  (df : DeviceFeatures) :
  build_device_features feature_set new_feature_set = Ok df ->
  exists tail,
    Py.int_of_hex (Str.last_chars 8 new_feature_set) = Ok tail
    /\ let aligned :=
         Nat.eqb (Nat.modulo (String.length new_feature_set) 8) 0 in
       support_set_volume_in_call df = (aligned && Z.testbit tail 0)%bool
    /\ support_clean_estimate df = (aligned && Z.testbit tail 1)%bool
    /\ support_custom_dnd df = (aligned && Z.testbit tail 2)%bool
    /\ carpet_deep_clean_supported df = Z.testbit tail 3
    /\ stuck_zone_supported df = (aligned && Z.testbit tail 4)%bool
    /\ custom_door_sill_supported df = (aligned && Z.testbit tail 5)%bool
    /\ clean_route_fast_mode_supported df = Z.testbit tail 8
    /\ cliff_zone_supported df = (aligned && Z.testbit tail 9)%bool
    /\ smart_door_sill_supported df = (aligned && Z.testbit tail 10)%bool
    /\ support_floor_direction df = (aligned && Z.testbit tail 11)%bool
    /\ wifi_manage_supported df = Z.testbit tail 7
    /\ back_charge_auto_wash_supported df = Z.testbit tail 12
    /\ support_incremental_map df = Z.testbit tail 13
    /\ offline_map_supported df = Z.testbit tail 14.
Proof.
  intros H. BuildFacts.steps H.
  exists tail_int. split; [reflexivity|].
  cbv beta iota zeta delta
    [support_set_volume_in_call support_clean_estimate support_custom_dnd
     carpet_deep_clean_supported stuck_zone_supported
     custom_door_sill_supported clean_route_fast_mode_supported
     cliff_zone_supported smart_door_sill_supported support_floor_direction
     wifi_manage_supported back_charge_auto_wash_supported
     support_incremental_map offline_map_supported].
  repeat split; BuildFacts.bit.
Qed.

Lemma tail_hex_flags_witness :
  exists df,
    build_device_features "0" "0000000000002063" = Ok df
    /\ exists tail,
        Py.int_of_hex (Str.last_chars 8 "0000000000002063") = Ok tail
        /\ let aligned :=
             Nat.eqb (Nat.modulo (String.length "0000000000002063") 8) 0 in
           support_set_volume_in_call df = (aligned && Z.testbit tail 0)%bool
        /\ support_clean_estimate df = (aligned && Z.testbit tail 1)%bool
        /\ support_custom_dnd df = (aligned && Z.testbit tail 2)%bool
        /\ carpet_deep_clean_supported df = Z.testbit tail 3
        /\ stuck_zone_supported df = (aligned && Z.testbit tail 4)%bool
        /\ custom_door_sill_supported df = (aligned && Z.testbit tail 5)%bool
        /\ clean_route_fast_mode_supported df = Z.testbit tail 8
        /\ cliff_zone_supported df = (aligned && Z.testbit tail 9)%bool
        /\ smart_door_sill_supported df = (aligned && Z.testbit tail 10)%bool
        /\ support_floor_direction df = (aligned && Z.testbit tail 11)%bool
        /\ wifi_manage_supported df = Z.testbit tail 7
        /\ back_charge_auto_wash_supported df = Z.testbit tail 12
        /\ support_incremental_map df = Z.testbit tail 13
        /\ offline_map_supported df = Z.testbit tail 14.
Proof.
  eexists. split; [vm_compute; reflexivity|].
  apply (tail_hex_flags "0" "0000000000002063"). reflexivity.
Defined.

(** ** The field stage and the construction hooks *)

Module ValidateFacts.

Local Open Scope list_scope.

Lemma bind_Ok_inv {A B} (r : result A) (k : A -> result B) (b : B) :
  bind r k = Ok b -> exists a, r = Ok a /\ k a = Ok b.
Proof. destruct r as [a|e]; [intros H; exists a; auto | discriminate]. Qed.

Lemma gather_Ok_inv {A B} (segment : string) (add : A -> B -> B)
  (head : result A) (rest : result B) (b : B) :
  gather segment add head rest = Ok b ->
  exists a b', head = Ok a /\ rest = Ok b' /\ b = add a b'.
Proof.
  unfold gather. destruct head as [a|e].
  - destruct rest as [b'|e']; [|discriminate].
    intros [= <-]. exists a, b'. auto.
  - destruct e; try discriminate.
    destruct (under segment _); destruct rest as [?|[]]; discriminate.
Qed.

Section WithPlatform.

Variable P : platform.

Lemma validate_fields_cons (val : ftype -> value -> result value)
  (input : items) (f : field) (fs : list field) :
  validate_fields val input (f :: fs)
  = gather (fname f) (fun v rest => (fname f, v) :: rest)
      (field_input val input f) (validate_fields val input fs).
Proof. reflexivity. Qed.

(** After the field stage every declared name is bound, to the value computed
    for the first field of that name, and no other name is. *)
Lemma validate_fields_get (val : ftype -> value -> result value)
  (input : items) (fl : list field) :
  forall self, validate_fields val input fl = Ok self ->
  forall name,
    match find_field name fl with
    | Some f => exists v, dict_get name self = Some v
                          /\ field_input val input f = Ok v
    | None => dict_get name self = None
    end.
Proof.
  induction fl as [|f fl IH]; intros self H name.
  - injection H as <-. reflexivity.
  - rewrite validate_fields_cons in H. apply gather_Ok_inv in H.
    destruct H as (v & rest & Hv & Hrest & ->).
    unfold find_field. cbn [find dict_get]. rewrite (String.eqb_sym (fname f) name).
    destruct (String.eqb name (fname f)).
    + exists v. split; [reflexivity | exact Hv].
    + exact (IH rest Hrest name).
Qed.

Lemma validate_model_dict (m : model) (input : items) :
  validate P (TModel m) (VDict input)
  = (self <- validate_fields (validate P) input (fields m) ;;
     self <- run_hooks m self ;;
     Ok (VModel (cls_name m) self)).
Proof. destruct m. reflexivity. Qed.

(** What a successful [from_dict] went through: the field stage on the
    transcoded payload, then the construction hooks. *)
Lemma from_dict_Ok_inv (cls : model) (data x : value) :
  from_dict P cls data = Ok x ->
  exists fs self,
    validate_fields (validate P) (validated_input cls data) (fields cls) = Ok fs
    /\ run_hooks cls fs = Ok self
    /\ x = VModel (cls_name cls) self.
Proof.
  intros H.
  assert (Hv : validate P (TModel cls) (VDict (validated_input cls data)) = Ok x).
  { destruct data; try exact H.
    unfold from_dict in H. rewrite WalkFacts.decamelize_obj_dict in H.
    unfold validated_input.
    destruct (validate P (TModel cls) _) as [obj|err]; [exact H|].
    destruct (is_ValueError err); discriminate. }
  rewrite validate_model_dict in Hv.
  apply bind_Ok_inv in Hv. destruct Hv as (fs & Hfs & Hv).
  apply bind_Ok_inv in Hv. destruct Hv as (self & Hself & Hv).
  injection Hv as <-. exists fs, self. auto.
Qed.

Lemma validate_prim_kind (p : prim) (x v : value) :
  validate_prim P p x = Ok v -> has_kind p v = true.
Proof.
  unfold validate_prim. destruct (has_kind p x) eqn:Hk.
  - intros [= <-]. exact Hk.
  - destruct (lax P p x) as [v'|]; [|discriminate].
    destruct (has_kind p v') eqn:Hk'; [|discriminate].
    intros [= <-]. exact Hk'.
Qed.

(** A field declared [p | None = None] holds [None] or a value of kind [p]. *)
Lemma optional_prim_field (input : items) (name : string) (p : prim) (v : value) :
  field_input (validate P) input (Field name (TOpt (TPrim p)) (Some VNone)) = Ok v ->
  v = VNone \/ has_kind p v = true.
Proof.
  unfold field_input. cbn [fname ftyp fdefault].
  destruct (dict_get name input) as [x|].
  - cbn [validate]. destruct x; try (intros H; right; exact (validate_prim_kind _ _ _ H)).
    intros [= <-]. left. reflexivity.
  - intros [= <-]. left. reflexivity.
Qed.

End WithPlatform.

Lemma has_kind_int (v : value) : has_kind PInt v = true -> exists z, v = VInt z.
Proof. destruct v; try discriminate. intros _. eexists. reflexivity. Qed.

Lemma getattr_known (self : items) (name : string) (v : value) :
  dict_get name self = Some v -> getattr self name = Ok v.
Proof. unfold getattr. intros ->. reflexivity. Qed.

Lemma getattr_Ok (self : items) (name : string) (v : value) :
  getattr self name = Ok v -> dict_get name self = Some v.
Proof. unfold getattr. destruct (dict_get name self); [intros [= ->]; reflexivity | discriminate]. Qed.

Lemma setattr_known (self : items) (name : string) (old v : value) :
  dict_get name self = Some old -> setattr self name v = Ok (dict_set name v self).
Proof. unfold setattr. intros ->. reflexivity. Qed.

Lemma getattr_dict_set (self : items) (k name : string) (v : value) :
  getattr (dict_set k v self) name
  = if String.eqb name k then Ok v else getattr self name.
Proof.
  unfold getattr. rewrite DictFacts.dict_get_set.
  destruct (String.eqb name k); reflexivity.
Qed.

Lemma setattr_dict_set (self : items) (k name : string) (v w : value) :
  setattr (dict_set k v self) name w
  = if String.eqb name k then Ok (dict_set name w (dict_set k v self))
    else match dict_get name self with
         | Some _ => Ok (dict_set name w (dict_set k v self))
         | None => Raise ValueError
         end.
Proof.
  unfold setattr. rewrite DictFacts.dict_get_set.
  destruct (String.eqb name k); reflexivity.
Qed.

(** Decide the comparisons of attribute names that are literals. *)
Ltac names :=
  repeat match goal with
    | |- context [String.eqb ?a ?b] =>
        let r := eval vm_compute in (String.eqb a b) in
        change (String.eqb a b) with r; cbv iota
    | H : context [String.eqb ?a ?b] |- _ =>
        let r := eval vm_compute in (String.eqb a b) in
        change (String.eqb a b) with r in H; cbv iota in H
    end.

End ValidateFacts.

(** ** The derived fields of the clean summary, the clean record and the timers *)

Module DerivedFacts.

Import ValidateFacts.

(** What the field stage left under a declared name. *)
Ltac lookup Hfs n :=
  let H := fresh "Hget" in
  pose proof (validate_fields_get _ _ _ _ Hfs n) as H;
  match type of H with
  | context [find_field ?a ?b] =>
      let r := eval vm_compute in (find_field a b) in
      change (find_field a b) with r in H
  end;
  let v := fresh "v" in
  let Hv := fresh "Hv" in
  destruct H as (v & H & Hv).

Lemma square_meters_arg (area v : value) :
  square_meters area = Ok v ->
  (area = VNone /\ v = VNone) \/ (exists a f, area = VInt a /\ v = VFloat f).
Proof.
  destruct area; try discriminate.
  - intros [= <-]. left. split; reflexivity.
  - cbn [square_meters]. intros H. right.
    apply bind_Ok_inv in H. destruct H as (q & _ & H).
    apply bind_Ok_inv in H. destruct H as (r & _ & H).
    injection H as <-. eauto.
Qed.

Lemma time_of_day_cases (hour minute t : value) :
  time_of_day hour minute = Ok t ->
  ((hour = VNone \/ minute = VNone) /\ t = VNone)
  \/ (exists h m, hour = VInt h /\ minute = VInt m /\ t = VTime h m
                  /\ 0 <= h <= 23 /\ 0 <= m <= 59).
Proof.
  destruct hour, minute; try discriminate;
    try (intros [= <-]; left; split; [auto | reflexivity]).
  cbn [time_of_day].
  destruct ((0 <=? z) && (z <=? 23) && (0 <=? z0) && (z0 <=? 59))%bool eqn:Hr;
    [|discriminate].
  intros [= <-]. right. exists z, z0.
  apply andb_true_iff in Hr. destruct Hr as [Hr H4].
  apply andb_true_iff in Hr. destruct Hr as [Hr H3].
  apply andb_true_iff in Hr. destruct Hr as [H1 H2].
  apply Z.leb_le in H1, H2, H3, H4. repeat split; assumption.
Qed.

Section WithPlatform.

Variable P : platform.

Lemma timer_times (cls : model) (data x : value) :
  fields cls = fields Cls.RoborockBaseTimer ->
  model_post_init cls = None ->
  dunder_init cls = Some RoborockBaseTimer_init ->
  from_dict P cls data = Ok x ->
  exists self start_hour start_minute end_hour end_minute start_time end_time,
    x = VModel (cls_name cls) self
    /\ getattr self "start_hour" = Ok start_hour
    /\ getattr self "start_minute" = Ok start_minute
    /\ getattr self "end_hour" = Ok end_hour
    /\ getattr self "end_minute" = Ok end_minute
    /\ getattr self "start_time" = Ok start_time
    /\ getattr self "end_time" = Ok end_time
    /\ time_of_day start_hour start_minute = Ok start_time
    /\ time_of_day end_hour end_minute = Ok end_time.
Proof.
  intros Hfields Hpost Hinit H.
  apply (from_dict_Ok_inv P) in H. destruct H as (fs & self & Hfs & Hhook & ->).
  rewrite Hfields in Hfs.
  lookup Hfs "start_hour". lookup Hfs "start_minute".
  lookup Hfs "end_hour". lookup Hfs "end_minute".
  lookup Hfs "start_time". lookup Hfs "end_time".
  unfold run_hooks in Hhook. rewrite Hpost, Hinit in Hhook. cbn [bind] in Hhook.
  unfold RoborockBaseTimer_init in Hhook.
  rewrite (getattr_known _ _ _ Hget), (getattr_known _ _ _ Hget0) in Hhook.
  cbn [bind] in Hhook.
  destruct (time_of_day v v0) as [st|] eqn:Hst; [|discriminate].
  cbn [bind] in Hhook.
  rewrite (setattr_known _ _ _ st Hget3) in Hhook. cbn [bind] in Hhook.
  rewrite !getattr_dict_set in Hhook. names.
  rewrite (getattr_known _ _ _ Hget1), (getattr_known _ _ _ Hget2) in Hhook.
  cbn [bind] in Hhook.
  destruct (time_of_day v1 v2) as [et|] eqn:Het; [|discriminate].
  cbn [bind] in Hhook.
  rewrite setattr_dict_set in Hhook. names. rewrite Hget4 in Hhook.
  injection Hhook as <-.
  exists (dict_set "end_time" et (dict_set "start_time" st fs)), v, v0, v1, v2, st, et.
  rewrite !getattr_dict_set. names.
  rewrite (getattr_known _ _ _ Hget), (getattr_known _ _ _ Hget0),
    (getattr_known _ _ _ Hget1), (getattr_known _ _ _ Hget2).
  repeat split; assumption.
Qed.

End WithPlatform.

End DerivedFacts.

Module RecordFacts.

Import ValidateFacts DerivedFacts.

Section WithPlatform.

Variable P : platform.
Variable CM : Cls.code_mappings.


Lemma clean_record_fields (data x : value) :
  from_dict P (Cls.CleanRecord P CM) data = Ok x ->
  exists self area begin end_ square_meter_area begin_datetime end_datetime,
    x = VModel "CleanRecord" self
    /\ getattr self "area" = Ok area
    /\ getattr self "begin" = Ok begin
    /\ getattr self "end" = Ok end_
    /\ getattr self "square_meter_area" = Ok square_meter_area
    /\ getattr self "begin_datetime" = Ok begin_datetime
    /\ getattr self "end_datetime" = Ok end_datetime
    /\ square_meters area = Ok square_meter_area
    /\ utc_datetime P begin = Ok begin_datetime
    /\ utc_datetime P end_ = Ok end_datetime.
Proof.
  intros H.
  apply (from_dict_Ok_inv P) in H. destruct H as (fs & self & Hfs & Hhook & ->).
  lookup Hfs "area". lookup Hfs "begin". lookup Hfs "end".
  lookup Hfs "square_meter_area". lookup Hfs "begin_datetime".
  lookup Hfs "end_datetime".
  unfold run_hooks in Hhook.
  change (model_post_init (Cls.CleanRecord P CM))
    with (Some (CleanRecord_model_post_init P)) in Hhook.
  change (dunder_init (Cls.CleanRecord P CM)) with (@None method) in Hhook.
  unfold CleanRecord_model_post_init in Hhook.
  rewrite (getattr_known _ _ _ Hget) in Hhook. cbn [bind] in Hhook.
  destruct (square_meters v) as [sq|] eqn:Hsq; [|discriminate].
  cbn [bind] in Hhook.
  rewrite (setattr_known _ _ _ sq Hget2) in Hhook. cbn [bind] in Hhook.
  rewrite getattr_dict_set in Hhook. names.
  rewrite (getattr_known _ _ _ Hget0) in Hhook. cbn [bind] in Hhook.
  destruct (utc_datetime P v0) as [bd|] eqn:Hbd; [|discriminate].
  cbn [bind] in Hhook.
  rewrite setattr_dict_set in Hhook. names. rewrite Hget3 in Hhook.
  cbn [bind] in Hhook.
  rewrite !getattr_dict_set in Hhook. names.
  rewrite (getattr_known _ _ _ Hget1) in Hhook. cbn [bind] in Hhook.
  destruct (utc_datetime P v1) as [ed|] eqn:Hed; [|discriminate].
  cbn [bind] in Hhook.
  unfold setattr in Hhook. rewrite !DictFacts.dict_get_set in Hhook. names.
  rewrite Hget4 in Hhook. injection Hhook as <-.
  eexists _, v, v0, v1, sq, bd, ed. split; [reflexivity|].
  rewrite !getattr_dict_set. names.
  rewrite (getattr_known _ _ _ Hget), (getattr_known _ _ _ Hget0),
    (getattr_known _ _ _ Hget1).
  repeat split; assumption.
Qed.

End WithPlatform.

End RecordFacts.



(** [CleanRecord], lines 662-667: in every decoded clean record the three
    derived fields are recomputed from [area], [begin] and [end]. *)
Theorem clean_record_derived (P : platform) (CM : Cls.code_mappings)
  (data x : value) :
  from_dict P (Cls.CleanRecord P CM) data = Ok x ->
  exists self area begin end_ square_meter_area begin_datetime end_datetime,
    x = VModel "CleanRecord" self
    /\ getattr self "area" = Ok area
    /\ getattr self "begin" = Ok begin
    /\ getattr self "end" = Ok end_
    /\ getattr self "square_meter_area" = Ok square_meter_area
    /\ getattr self "begin_datetime" = Ok begin_datetime
    /\ getattr self "end_datetime" = Ok end_datetime
    /\ square_meters area = Ok square_meter_area
    /\ utc_datetime P begin = Ok begin_datetime
    /\ utc_datetime P end_ = Ok end_datetime.
Proof. apply RecordFacts.clean_record_fields. Qed.

Lemma clean_record_derived_witness :
  exists x,
    from_dict strict (Cls.CleanRecord strict sample_tables)
      (VDict [("begin", VInt 0); ("end", VInt 1700000000); ("area", VInt 1250000)])
    = Ok x
    /\ exists self area begin end_ square_meter_area begin_datetime end_datetime,
        x = VModel "CleanRecord" self
        /\ getattr self "area" = Ok area
        /\ getattr self "begin" = Ok begin
        /\ getattr self "end" = Ok end_
        /\ getattr self "square_meter_area" = Ok square_meter_area
        /\ getattr self "begin_datetime" = Ok begin_datetime
        /\ getattr self "end_datetime" = Ok end_datetime
        /\ square_meters area = Ok square_meter_area
        /\ utc_datetime strict begin = Ok begin_datetime
        /\ utc_datetime strict end_ = Ok end_datetime.
Proof.
  eexists. split; [vm_compute; reflexivity|].
  apply (clean_record_derived strict sample_tables
           (VDict [("begin", VInt 0); ("end", VInt 1700000000);
                   ("area", VInt 1250000)])).
  reflexivity.
Defined.

(** The falsy-timestamp rule of lines 664-667: a decoded clean record whose
    [begin] is the integer [t] has [begin_datetime] equal to [None] when [t]
    is 0 and to the UTC instant [t] otherwise; the same holds for [end]. *)
Theorem clean_record_zero_timestamp (P : platform) (CM : Cls.code_mappings)
  (data : value) (self : items) (edge : string) (t : Z) :
  from_dict P (Cls.CleanRecord P CM) data = Ok (VModel "CleanRecord" self) ->
  edge = "begin" \/ edge = "end" ->
  getattr self edge = Ok (VInt t) ->
  getattr self (edge ++ "_datetime")
  = Ok (if t =? 0 then VNone else VDatetime t).
Proof.
  intros H Hedge Ht.
  apply RecordFacts.clean_record_fields in H.
  destruct H as (self' & area & b & e & sq & bd & ed & Hx & _ & Hb & He & _
                 & Hgb & Hge & _ & Hbd & Hed).
  injection Hx as <-.
  assert (Hcase : forall v, utc_datetime P (VInt t) = Ok v ->
                            v = if t =? 0 then VNone else VDatetime t).
  { intros v. cbn [utc_datetime]. destruct (t =? 0); [intros [= <-]; reflexivity|].
    destruct (fromtimestamp_raises P t); [discriminate | intros [= <-]; reflexivity]. }
  destruct Hedge as [-> | ->]; cbn [String.append].
  - assert (b = VInt t) by congruence. subst b.
    rewrite Hgb, (Hcase bd Hbd). reflexivity.
  - assert (e = VInt t) by congruence. subst e.
    rewrite Hge, (Hcase ed Hed). reflexivity.
Qed.

Lemma clean_record_zero_timestamp_witness :
  exists self,
    from_dict strict (Cls.CleanRecord strict sample_tables)
      (VDict [("begin", VInt 0); ("end", VInt 1700000000)])
    = Ok (VModel "CleanRecord" self)
    /\ getattr self "begin" = Ok (VInt 0)
    /\ getattr self ("begin" ++ "_datetime")
       = Ok (if 0 =? 0 then VNone else VDatetime 0).
Proof.
  eexists. split; [vm_compute; reflexivity|]. split; [reflexivity|].
  apply (clean_record_zero_timestamp strict sample_tables
           (VDict [("begin", VInt 0); ("end", VInt 1700000000)]) _ "begin" 0);
    [reflexivity | left; reflexivity | reflexivity].
Defined.



(** A decoded timer whose start hour and minute are both integers has them
    within 0..23 and 0..59, and [start_time] is that time of day: a payload
    outside these bounds is never decoded into an object. *)
Theorem timer_start_in_range (P : platform) (cls : model) (data : value)
  (self : items) (h m : Z) :
  In cls timer_classes ->
  from_dict P cls data = Ok (VModel (cls_name cls) self) ->
  getattr self "start_hour" = Ok (VInt h) ->
  getattr self "start_minute" = Ok (VInt m) ->
  0 <= h <= 23 /\ 0 <= m <= 59 /\ getattr self "start_time" = Ok (VTime h m).
Proof.
  intros Hin H Hh Hm.
  assert (Hlemma : exists self' sh sm eh em st et,
             VModel (cls_name cls) self = VModel (cls_name cls) self'
             /\ getattr self' "start_hour" = Ok sh
             /\ getattr self' "start_minute" = Ok sm
             /\ getattr self' "end_hour" = Ok eh
             /\ getattr self' "end_minute" = Ok em
             /\ getattr self' "start_time" = Ok st
             /\ getattr self' "end_time" = Ok et
             /\ time_of_day sh sm = Ok st
             /\ time_of_day eh em = Ok et).
  { apply (DerivedFacts.timer_times P cls data); try exact H;
      destruct Hin as [<- | [<- | [<- | []]]]; reflexivity. }
  destruct Hlemma
    as (self' & sh & sm & eh & em & st & et & Hx & Hsh & Hsm & _ & _ & Hgst & _ & Hst & _).
  injection Hx as <-.
  assert (sh = VInt h) by congruence. assert (sm = VInt m) by congruence.
  subst sh sm. rewrite Hgst.
  apply DerivedFacts.time_of_day_cases in Hst.
  destruct Hst as [[[Hn | Hn] _] | (h' & m' & Eh & Em & Est & Hh' & Hm')];
    try discriminate.
  injection Eh as <-. injection Em as <-. subst st.
  split; [exact Hh'|]. split; [exact Hm' | reflexivity].
Qed.

Lemma timer_start_in_range_witness :
  exists self,
    from_dict strict Cls.ValleyElectricityTimer
      (VDict [("startHour", VInt 23); ("startMinute", VInt 59)])
    = Ok (VModel (cls_name Cls.ValleyElectricityTimer) self)
    /\ 0 <= 23 <= 23 /\ 0 <= 59 <= 59
    /\ getattr self "start_time" = Ok (VTime 23 59).
Proof.
  eexists. split; [vm_compute; reflexivity|].
  apply (timer_start_in_range strict Cls.ValleyElectricityTimer
           (VDict [("startHour", VInt 23); ("startMinute", VInt 59)]));
    [right; right; left; reflexivity | reflexivity | reflexivity | reflexivity].
Defined.

(** ** [model_dump] and [as_dict] return no instance *)

Module DumpFacts.

Local Open Scope list_scope.

Lemma plain_dict_cons (k : string) (x : value) (d : items) :
  plain (VDict ((k, x) :: d)) = (plain x && plain (VDict d))%bool.
Proof. reflexivity. Qed.

Lemma plain_dict_Forall (d : items) :
  plain (VDict d) = true <-> Forall (fun kv => plain (snd kv) = true) d.
Proof.
  induction d as [|[k x] d IH].
  - split; [constructor | reflexivity].
  - rewrite plain_dict_cons, andb_true_iff, IH. split.
    + intros [Hx Hd]. constructor; assumption.
    + intros H. inversion H; subst. split; assumption.
Qed.

(** [model_dump] turns every instance, at any depth, into a dictionary. *)
Lemma model_dump_plain (v : value) : plain (model_dump v) = true.
Proof.
  induction v as [| | | | | | | |l IH|d IH|cls fs IH] using value_nested_ind;
    try reflexivity.
  - cbn [model_dump plain]. rewrite forallb_forall. intros x Hx.
    apply in_map_iff in Hx. destruct Hx as [y [<- Hy]].
    rewrite Forall_forall in IH. exact (IH y Hy).
  - cbn [model_dump]. apply plain_dict_Forall.
    induction IH as [|[k x] d Hx _ IHd]; [constructor|].
    constructor; [exact Hx | exact IHd].
  - cbn [model_dump]. apply plain_dict_Forall.
    induction IH as [|[k x] fs Hx _ IHfs]; [constructor|].
    cbn [snd] in Hx. destruct x; try (constructor; [exact Hx | exact IHfs]).
    exact IHfs.
Qed.

Lemma encode_item_plain (x : value) : plain x = true -> plain (encode_item x) = true.
Proof. destruct x; try (intros H; exact H). intros _. destruct c; reflexivity. Qed.


(** The items [RoborockBase.as_dict] returns hold no instance: the
    [isinstance(value, RoborockBase)] tests of lines 117 and 199 never hold. *)
Lemma RoborockBase_as_dict_plain (self : value) :
  Forall (fun kv => plain (snd kv) = true) (RoborockBase_as_dict self).
Proof.
  unfold RoborockBase_as_dict.
  pose proof (model_dump_plain self) as Hp.
  destruct (model_dump self) as [| | | | | | | | |dumped|]; try constructor.
  apply plain_dict_Forall in Hp. rewrite Forall_forall in Hp.
  apply Forall_forall. intros [k x] Hin.
  unfold not_none_items in Hin. apply filter_In in Hin. destruct Hin as [Hin _].
  change (dict_of_items ?l) with (insert_all l []) in Hin.
  apply DictFacts.In_insert_all in Hin. destruct Hin as [[] | Hin].
  apply in_map_iff in Hin. destruct Hin as [[k0 x0] [[= <- <-] Hin0]].
  cbn [snd]. apply encode_item_plain. exact (Hp (k0, x0) Hin0).
Qed.

End DumpFacts.


(** ** The capability decoder: the legacy feature word *)

Lemma build_device_features_returns_witness :
  exists df, build_device_features "0" "8796093022221" = Ok df.
Proof.
  apply (build_device_features_returns "0" "8796093022221" 0 8796093022221);
    [reflexivity | reflexivity | lia].
Defined.



(** ** [RRiot.as_dict] on decoded instances *)

Module RRiotFacts.

Local Open Scope list_scope.

Lemma as_dict_model_is_dict (cls : string) (fs : items) :
  exists d, as_dict (VModel cls fs) = VDict d.
Proof.
  cbn [as_dict]. destruct (String.eqb cls "RRiot").
  - match goal with |- context [match ?o with Some _ => _ | None => _ end] =>
      destruct o as [[r r_dict]|] end.
    + destruct (truthy_value r); eexists; reflexivity.
    + eexists; reflexivity.
  - destruct (String.eqb cls "UserData"); eexists; reflexivity.
Qed.

(** The values of a transcoded dictionary are never instances. *)
Lemma decamelize_item_not_model (ign : list string) (b : value) (cls : string)
  (fs : items) :
  decamelize_item ign b <> VModel cls fs.
Proof.
  unfold decamelize_item. destruct b; cbn [is_container]; try discriminate.
  change (decamelize_obj ign (VModel ?c ?f))
    with (decamelize_plain ign (as_dict (VModel c f))).
  match goal with |- context [as_dict (VModel ?c ?f)] =>
    destruct (as_dict_model_is_dict c f) as [d ->] end.
  discriminate.
Qed.

Lemma validated_input_not_model (cls : model) (data : value) (name : string)
  (c : string) (fs : items) :
  dict_get name (validated_input cls data) <> Some (VModel c fs).
Proof.
  intros H. apply DictFacts.dict_get_In in H.
  unfold validated_input in H. destruct data; try exact H.
  change (dict_of_items ?l) with (insert_all l []) in H.
  apply DictFacts.In_insert_all in H. destruct H as [[] | H].
  apply in_map_iff in H. destruct H as [ab [Hab _]].
  unfold item_of in Hab. injection Hab as _ Hb.
  exact (decamelize_item_not_model _ _ _ _ Hb).
Qed.

Lemma has_kind_str (v : value) : has_kind PStr v = true -> exists s, v = VStr s.
Proof. destruct v; try discriminate. intros _. eexists. reflexivity. Qed.

Section WithPlatform.

Variable P : platform.

(** A field declared [str], with no default, holds a string. *)
Lemma required_str_field (input : items) (name : string) (v : value) :
  field_input (validate P) input (Field name (TPrim PStr) None) = Ok v ->
  exists s, v = VStr s.
Proof.
  unfold field_input. cbn [fname ftyp fdefault].
  destruct (dict_get name input) as [x|]; [|discriminate].
  cbn [validate]. intros H. apply has_kind_str.
  exact (ValidateFacts.validate_prim_kind P _ _ _ H).
Qed.

Lemma optional_str_field (input : items) (name : string) (v : value) :
  field_input (validate P) input (Field name (TOpt (TPrim PStr)) (Some VNone)) = Ok v ->
  v = VNone \/ exists s, v = VStr s.
Proof.
  intros H. apply ValidateFacts.optional_prim_field in H.
  destruct H as [-> | H]; [left; reflexivity | right; exact (has_kind_str _ H)].
Qed.

(** A [Reference] built from a dictionary holds four values, each a string
    or [None]. *)
Lemma reference_fields (input : items) (x : value) :
  validate P (TModel Cls.Reference) (VDict input) = Ok x ->
  exists r a m l,
    x = VModel "Reference" [("r", r); ("a", a); ("m", m); ("l", l)]
    /\ (r = VNone \/ exists s, r = VStr s)
    /\ (a = VNone \/ exists s, a = VStr s)
    /\ (m = VNone \/ exists s, m = VStr s)
    /\ (l = VNone \/ exists s, l = VStr s).
Proof.
  intros H. rewrite ValidateFacts.validate_model_dict in H.
  apply ValidateFacts.bind_Ok_inv in H. destruct H as (fs & Hfs & H).
  apply ValidateFacts.bind_Ok_inv in H. destruct H as (self & Hself & H).
  injection H as <-. injection Hself as <-.
  change (fields Cls.Reference) with
    [Field "r" (TOpt (TPrim PStr)) (Some VNone);
     Field "a" (TOpt (TPrim PStr)) (Some VNone);
     Field "m" (TOpt (TPrim PStr)) (Some VNone);
     Field "l" (TOpt (TPrim PStr)) (Some VNone)] in Hfs.
  rewrite ValidateFacts.validate_fields_cons in Hfs.
  apply ValidateFacts.gather_Ok_inv in Hfs. destruct Hfs as (r & fs1 & Hr & Hfs & ->).
  rewrite ValidateFacts.validate_fields_cons in Hfs.
  apply ValidateFacts.gather_Ok_inv in Hfs. destruct Hfs as (a & fs2 & Ha & Hfs & ->).
  rewrite ValidateFacts.validate_fields_cons in Hfs.
  apply ValidateFacts.gather_Ok_inv in Hfs. destruct Hfs as (m & fs3 & Hm & Hfs & ->).
  rewrite ValidateFacts.validate_fields_cons in Hfs.
  apply ValidateFacts.gather_Ok_inv in Hfs. destruct Hfs as (l & fs4 & Hl & Hfs & ->).
  injection Hfs as <-.
  exists r, a, m, l. split; [reflexivity|].
  repeat split; eapply optional_str_field; eassumption.
Qed.

(** An [RRiot] decoded from a payload: four strings and a [Reference]. *)
Lemma rriot_fields (data x : value) :
  from_dict P Cls.RRiot data = Ok x ->
  exists u s h k r a m l,
    x = VModel "RRiot"
          [("u", VStr u); ("s", VStr s); ("h", VStr h); ("k", VStr k);
           ("r", VModel "Reference" [("r", r); ("a", a); ("m", m); ("l", l)])]
    /\ (r = VNone \/ exists s, r = VStr s)
    /\ (a = VNone \/ exists s, a = VStr s)
    /\ (m = VNone \/ exists s, m = VStr s)
    /\ (l = VNone \/ exists s, l = VStr s).
Proof.
  intros H. apply ValidateFacts.from_dict_Ok_inv in H.
  destruct H as (fs & self & Hfs & Hself & ->).
  injection Hself as <-.
  change (fields Cls.RRiot) with
    [Field "u" (TPrim PStr) None; Field "s" (TPrim PStr) None;
     Field "h" (TPrim PStr) None; Field "k" (TPrim PStr) None;
     Field "r" (TModel Cls.Reference) None] in Hfs.
  rewrite ValidateFacts.validate_fields_cons in Hfs.
  apply ValidateFacts.gather_Ok_inv in Hfs. destruct Hfs as (vu & fs1 & Hu & Hfs & ->).
  rewrite ValidateFacts.validate_fields_cons in Hfs.
  apply ValidateFacts.gather_Ok_inv in Hfs. destruct Hfs as (vs & fs2 & Hs & Hfs & ->).
  rewrite ValidateFacts.validate_fields_cons in Hfs.
  apply ValidateFacts.gather_Ok_inv in Hfs. destruct Hfs as (vh & fs3 & Hh & Hfs & ->).
  rewrite ValidateFacts.validate_fields_cons in Hfs.
  apply ValidateFacts.gather_Ok_inv in Hfs. destruct Hfs as (vk & fs4 & Hk & Hfs & ->).
  rewrite ValidateFacts.validate_fields_cons in Hfs.
  apply ValidateFacts.gather_Ok_inv in Hfs. destruct Hfs as (vr & fs5 & Hr & Hfs & ->).
  injection Hfs as <-.
  apply required_str_field in Hu, Hs, Hh, Hk.
  destruct Hu as [u ->], Hs as [s ->], Hh as [h ->], Hk as [k ->].
  unfold field_input in Hr. cbn [fname ftyp fdefault] in Hr.
  destruct (dict_get "r" (validated_input Cls.RRiot data)) as [xr|] eqn:Hget;
    [|discriminate].
  destruct xr as [| | | | | | | | |input|c cfs]; try discriminate.
  - apply reference_fields in Hr.
    destruct Hr as (r & a & m & l & -> & Hrs).
    exists u, s, h, k, r, a, m, l. split; [reflexivity | exact Hrs].
  - destruct (validated_input_not_model _ _ _ _ _ Hget).
Qed.

End WithPlatform.

End RRiotFacts.

(** [RRiot.as_dict], lines 177-181: on an instance decoded by [from_dict] the
    override returns exactly what the inherited [RoborockBase.as_dict]
    returns; the entry it writes under [r] is the one already there. *)
Theorem RRiot_as_dict_inherited (P : platform) (data x : value) :
  from_dict P Cls.RRiot data = Ok x ->
  as_dict x = VDict (RoborockBase_as_dict x).
Proof.
  intros H. apply RRiotFacts.rriot_fields in H.
  destruct H as (u & s & h & k & r & a & m & l & -> & Hr & Ha & Hm & Hl).
  destruct Hr as [-> | [sr ->]], Ha as [-> | [sa ->]],
           Hm as [-> | [sm ->]], Hl as [-> | [sl ->]];
    vm_compute; reflexivity.
Qed.

Lemma RRiot_as_dict_inherited_witness :
  exists x,
    from_dict strict Cls.RRiot
      (VDict [("u", VStr "user"); ("s", VStr "secret"); ("h", VStr "hmac");
              ("k", VStr "key");
              ("r", VDict [("r", VStr "EU"); ("a", VStr "https://api.example");
                           ("m", VStr "ssl://mqtt.example:8883")])])
    = Ok x
    /\ as_dict x = VDict (RoborockBase_as_dict x)
    /\ as_dict x
       = VDict [("u", VStr "user"); ("s", VStr "secret"); ("h", VStr "hmac");
                ("k", VStr "key");
                ("r", VDict [("r", VStr "EU"); ("a", VStr "https://api.example");
                             ("m", VStr "ssl://mqtt.example:8883")])].
Proof.
  eexists. split; [vm_compute; reflexivity|]. split.
  - apply (RRiot_as_dict_inherited strict
             (VDict [("u", VStr "user"); ("s", VStr "secret"); ("h", VStr "hmac");
                     ("k", VStr "key");
                     ("r", VDict [("r", VStr "EU"); ("a", VStr "https://api.example");
                                  ("m", VStr "ssl://mqtt.example:8883")])])).
    reflexivity.
  - reflexivity.
Defined.
